(** * KPI engine of the maintenance dashboard (dash_kpi_me.py)

    A shallow embedding of the computation engine of [dash_kpi_me.py]:
    [calcular_duracion_minutos], [clean_and_prepare_data],
    [calculate_metrics], [calculate_reliability_metrics], the three
    [get_weekly_*] aggregators and [apply_filters]; and, of
    [load_data_from_google_sheets] and [main], what they compute between
    the engine and the widgets.

    Conventions of the embedding.
    - A pandas [DataFrame] is a list of column labels together with a list of
      rows; a row maps labels to cells.  A label that is not in [columns]
      raises [KeyError] on access, as [df['X']] does.
    - Python numbers (int and float) are exact rationals [Q]; the special
      float values that pandas produces on a division by zero are kept
      apart ([fdiv]).
    - Python exceptions are values of [exn]; fallible code runs in [result].
    - A [Timestamp] is a calendar date with the seconds since midnight; the
      engine reads the date of a start date only.
    - What the engine delegates to numpy and to the parsers of pandas
      ([np.exp], [pd.to_datetime] and [pd.to_numeric] on text, [str] of a
      value that is not text) is the interface [Host]. *)

From Stdlib Require Import QArith Qfield Lqa ZArith Lia List Sorting.Sorted.
From Stdlib Require Import Strings.String Strings.Ascii DecimalString.
From stdpp Require Import gmap strings list fin_maps.

Local Open Scope Q_scope.
Local Open Scope string_scope.
Local Open Scope stdpp_scope.

(** ** Exceptions and results *)

Inductive exn : Type :=
| KeyError (label : string)
| TypeError
| ValueError
| AttributeError.

Inductive result (A : Type) : Type :=
| Ok (a : A)
| Raise (e : exn).
Arguments Ok {A} a.
Arguments Raise {A} e.

#[global] Instance result_ret : MRet result := fun A a => Ok a.
#[global] Instance result_bind : MBind result := fun A B f r =>
  match r with
  | Ok a => f a
  | Raise e => Raise e
  end.

Definition is_ok {A : Type} (r : result A) : bool :=
  match r with Ok _ => true | Raise _ => false end.

(** The value of a result that is known to be [Ok]. *)
Definition unwrap {A : Type} (d : A) (r : result A) : A :=
  match r with Ok a => a | Raise _ => d end.

(** [mapM] over a list, left to right: the first exception wins. *)
Fixpoint traverse {A B : Type} (f : A -> result B) (l : list A) : result (list B) :=
  match l with
  | [] => Ok []
  | x :: l' => y ← f x; ys ← traverse f l'; Ok (y :: ys)
  end.

(** ** Numbers *)

Definition Qltb (x y : Q) : bool := negb (Qle_bool y x).

(** Python's [max(a, b)]: the first argument unless the second is larger. *)
Definition py_max (a b : Q) : Q := if Qltb a b then b else a.

Definition of_nat (n : nat) : Q := inject_Z (Z.of_nat n).

(** A float that may be one of the IEEE special values. *)
Inductive fval : Type :=
| Fin (q : Q)
| PInf
| NInf
| FNaN.

(** numpy's true division of two finite numbers. *)
Definition fdiv (a b : Q) : fval :=
  if Qeq_bool b 0 then
    (if Qeq_bool a 0 then FNaN else if Qltb 0 a then PInf else NInf)
  else Fin (a / b).

(** Multiplication of a float by a positive finite constant. *)
Definition fscale (x : fval) (k : Q) : fval :=
  match x with
  | Fin q => Fin (q * k)
  | other => other
  end.

Definition is_finite (x : fval) : bool :=
  match x with Fin _ => true | _ => false end.

(** ** Calendar dates, after CPython's [datetime] *)

Record date : Type := mkdate { year : Z; month : Z; day : Z }.

Definition date_eqb (a b : date) : bool :=
  (year a =? year b)%Z && (month a =? month b)%Z && (day a =? day b)%Z.

Definition is_leap (y : Z) : bool :=
  ((y mod 4 =? 0) && (negb (y mod 100 =? 0) || (y mod 400 =? 0)))%Z.

Definition days_before_year (y : Z) : Z :=
  let p := (y - 1)%Z in (p * 365 + p / 4 - p / 100 + p / 400)%Z.

Definition days_in_month (y m : Z) : Z :=
  if (m =? 2)%Z then (if is_leap y then 29 else 28)%Z
  else if ((m =? 4) || (m =? 6) || (m =? 9) || (m =? 11))%Z then 30%Z
  else 31%Z.

Definition days_before_month (y m : Z) : Z :=
  fold_left (fun acc k => (acc + days_in_month y (Z.of_nat k))%Z)
            (seq 1 (Z.to_nat (m - 1))) 0%Z.

(** [date.toordinal()]: 1 for 0001-01-01. *)
Definition ymd2ord (d : date) : Z :=
  (days_before_year (year d) + days_before_month (year d) (month d) + day d)%Z.

Definition isoweek1monday (y : Z) : Z :=
  let firstday := ymd2ord (mkdate y 1 1) in
  let firstweekday := ((firstday + 6) mod 7)%Z in
  let week1monday := (firstday - firstweekday)%Z in
  if (3 <? firstweekday)%Z then (week1monday + 7)%Z else week1monday.

(** The week number of [date.isocalendar()]. *)
Definition iso_week (d : date) : Z :=
  let y := year d in
  let today := ymd2ord d in
  let week := ((today - isoweek1monday y) / 7)%Z in
  if (week <? 0)%Z then ((today - isoweek1monday (y - 1)) / 7 + 1)%Z
  else if ((52 <=? week) && (isoweek1monday (y + 1) <=? today))%Z then 1%Z
  else (week + 1)%Z.

Definition date_valid (d : date) : bool :=
  ((1 <=? month d) && (month d <=? 12) && (1 <=? day d)
   && (day d <=? days_in_month (year d) (month d)))%Z.

(** [a <= b] on [datetime.date]. *)
Definition date_leb (a b : date) : bool := (ymd2ord a <=? ymd2ord b)%Z.

(** A pandas [Timestamp]: a date and the seconds since midnight. *)
Record timestamp : Type := mkts { ts_date : date; ts_secs : Q }.

(** ** Text *)

(** [str(n)] for a Python int. *)
Definition str_int (z : Z) : string := NilZero.string_of_int (Z.to_int z).

Fixpoint replicate_char (n : nat) (c : ascii) : string :=
  match n with
  | O => EmptyString
  | S n' => String c (replicate_char n' c)
  end.

(** [s.zfill(width)] for a string without a sign. *)
Definition zfill (width : nat) (s : string) : string :=
  replicate_char (width - String.length s) "0"%char ++ s.

(** [d.strftime('%Y-%m-%d')]. *)
Definition strftime_ymd (d : date) : string :=
  zfill 4 (str_int (year d)) ++ "-" ++ zfill 2 (str_int (month d))
    ++ "-" ++ zfill 2 (str_int (day d)).

(** ** Cells and frames *)

Inductive cell : Type :=
| NaN                    (* a missing value *)
| Num (q : Q)            (* an int or a float *)
| Str (s : string)       (* text *)
| Ts (t : timestamp)     (* a Timestamp *)
| NaT.                   (* a missing Timestamp *)

Record DataFrame : Type := mkdf {
  columns : list string;
  rows : list (gmap string cell)
}.

(** [df.empty]: either axis has length 0. *)
Definition df_empty (df : DataFrame) : bool :=
  match columns df, rows df with
  | [], _ | _, [] => true
  | _, _ => false
  end.

(** ['X' in df.columns] *)
Definition has_col (df : DataFrame) (c : string) : bool :=
  existsb (String.eqb c) (columns df).

(** [row['X']] for a label of the frame. *)
Definition at_col (c : string) (r : gmap string cell) : cell :=
  default NaN (r !! c).

(** [df['X']] *)
Definition getitem (df : DataFrame) (c : string) : result (list cell) :=
  if has_col df c then Ok (map (at_col c) (rows df)) else Raise (KeyError c).

(** [pd.isna(x)] *)
Definition isna (c : cell) : bool :=
  match c with NaN | NaT => true | _ => false end.

(** [x == 'text'] on one cell. *)
Definition cell_eq_str (v : string) (c : cell) : bool :=
  match c with Str s => String.eqb s v | _ => false end.

(** [x == y] on two cells (a missing value equals nothing). *)
Definition cell_eqb (a b : cell) : bool :=
  match a, b with
  | Num p, Num q => Qeq_bool p q
  | Str s, Str t => String.eqb s t
  | Ts s, Ts t => date_eqb (ts_date s) (ts_date t) && Qeq_bool (ts_secs s) (ts_secs t)
  | _, _ => false
  end.

(** [df['X'] == 'text']: a boolean mask. *)
Definition mask_eq (df : DataFrame) (c v : string) : result (list bool) :=
  col ← getitem df c; Ok (map (cell_eq_str v) col).

Fixpoint select {A : Type} (mask : list bool) (l : list A) : list A :=
  match mask, l with
  | b :: mask', x :: l' => if b then x :: select mask' l' else select mask' l'
  | _, _ => []
  end.

(** [df[mask]] *)
Definition loc (df : DataFrame) (mask : list bool) : DataFrame :=
  {| columns := columns df; rows := select mask (rows df) |}.

(** The contribution of one cell to [Series.sum()]: missing values are
    skipped, text and timestamps do not add up. *)
Definition cell_num (c : cell) : result Q :=
  match c with
  | Num q => Ok q
  | NaN => Ok 0
  | _ => Raise TypeError
  end.

(** [series.sum()] *)
Fixpoint series_sum (l : list cell) : result Q :=
  match l with
  | [] => Ok 0
  | c :: l' => q ← cell_num c; s ← series_sum l'; Ok (q + s)
  end.

(** [df['X'].sum()] *)
Definition col_sum (df : DataFrame) (c : string) : result Q :=
  col ← getitem df c; series_sum col.

(** [df['X'].sum() if 'X' in df.columns else 0], the sum taken over [sub]. *)
Definition col_sum_or_0 (df sub : DataFrame) (c : string) : result Q :=
  if has_col df c then col_sum sub c else Ok 0.

(** [df.groupby(key)[val].sum()]: rows whose key is missing are dropped;
    the groups are kept in first-seen order (pandas sorts them, which
    neither [.sum()] nor [.get()] observes). *)
Fixpoint group_add (k : cell) (v : Q) (acc : list (cell * Q)) : list (cell * Q) :=
  match acc with
  | [] => [(k, v)]
  | (k', v') :: acc' =>
      if cell_eqb k k' then (k', v' + v) :: acc' else (k', v') :: group_add k v acc'
  end.

Fixpoint group_sums (kvs : list (cell * cell)) (acc : list (cell * Q))
  : result (list (cell * Q)) :=
  match kvs with
  | [] => Ok acc
  | (k, c) :: kvs' =>
      if isna k then group_sums kvs' acc
      else v ← cell_num c; group_sums kvs' (group_add k v acc)
  end.

Definition groupby_sum (df : DataFrame) (key val : string) : result (list (cell * Q)) :=
  ks ← getitem df key;
  vs ← getitem df val;
  group_sums (combine ks vs) [].

(** [totals.get('text', 0)] *)
Fixpoint totals_get (totals : list (cell * Q)) (v : string) : Q :=
  match totals with
  | [] => 0
  | (k, q) :: totals' => if cell_eq_str v k then q else totals_get totals' v
  end.

(** [totals.sum()] *)
Definition totals_sum (totals : list (cell * Q)) : Q :=
  fold_right (fun kq s => snd kq + s) 0 totals.

(** [df.sort_values(key)]: an insertion sort on the key (the buckets that
    the engine sorts have pairwise different keys, so the order that pandas
    gives to ties is not observed). *)
Fixpoint insert_by {A : Type} (leb : A -> A -> bool) (x : A) (l : list A) : list A :=
  match l with
  | [] => [x]
  | y :: l' => if leb x y then x :: l else y :: insert_by leb x l'
  end.

Definition sort_by {A : Type} (leb : A -> A -> bool) (l : list A) : list A :=
  fold_right (insert_by leb) [] l.

(** ** Weekly buckets *)

(** The three grouping columns [SEMANA_STR], [AÑO], [SEMANA]. *)
Record week_key : Type := mkwk { SEMANA_STR : string; AÑO : Z; SEMANA : Z }.

Definition wk_eqb (a b : week_key) : bool :=
  String.eqb (SEMANA_STR a) (SEMANA_STR b) && (AÑO a =? AÑO b)%Z
  && (SEMANA a =? SEMANA b)%Z.

(** Order of the tuples [(SEMANA_STR, AÑO, SEMANA)]. *)
Definition wk_leb (a b : week_key) : bool :=
  match String.compare (SEMANA_STR a) (SEMANA_STR b) with
  | Lt => true
  | Gt => false
  | Eq =>
      match Z.compare (AÑO a) (AÑO b) with
      | Lt => true
      | Gt => false
      | Eq => (SEMANA a <=? SEMANA b)%Z
      end
  end.

(** [AÑO.astype(str)]: the year column is a float column as soon as one
    start date of the frame is missing. *)
Definition year_str (float_years : bool) (y : Z) : string :=
  if float_years then str_int y ++ ".0" else str_int y.

(** [SEMANA.astype(str).str.zfill(2)] *)
Definition week_str (w : Z) : string := zfill 2 (str_int w).

(** [SEMANA], [AÑO] and [SEMANA_STR] of one row; nothing for a missing date. *)
Definition week_of (float_years : bool) (o : option timestamp) : option week_key :=
  match o with
  | Some t =>
      let SEMANA := iso_week (ts_date t) in
      let AÑO := year (ts_date t) in
      Some (mkwk (year_str float_years AÑO ++ "-S" ++ week_str SEMANA) AÑO SEMANA)
  | None => None
  end.

(** [AÑO.astype(str) + SEMANA.astype(str).str.zfill(2)] *)
Definition semana_num (float_years : bool) (k : week_key) : string :=
  year_str float_years (AÑO k) ++ week_str (SEMANA k).

(** [groupby(['SEMANA_STR', 'AÑO', 'SEMANA'])]: the rows of each key in
    their order, rows without a key dropped, the groups sorted by key. *)
Fixpoint group_push {A : Type} (k : week_key) (x : A) (gs : list (week_key * list A))
  : list (week_key * list A) :=
  match gs with
  | [] => [(k, [x])]
  | (k', xs) :: gs' =>
      if wk_eqb k k' then (k', (xs ++ [x])%list) :: gs' else (k', xs) :: group_push k x gs'
  end.

Definition collect_groups {A : Type} (keyed : list (option week_key * A))
  : list (week_key * list A) :=
  fold_left (fun gs kx =>
               match fst kx with
               | Some k => group_push k (snd kx) gs
               | None => gs
               end) keyed [].

Definition groupby_week {A : Type} (keyed : list (option week_key * A))
  : list (week_key * list A) :=
  sort_by (fun a b => wk_leb (fst a) (fst b)) (collect_groups keyed).

(** [.size()] of each group. *)
Definition group_sizes {A : Type} (gs : list (week_key * list A)) : list (week_key * Q) :=
  map (fun g => (fst g, of_nat (length (snd g)))) gs.

(** The right-hand value of a left [merge] on the grouping columns. *)
Fixpoint merge_lookup (k : week_key) (right : list (week_key * Q)) : cell :=
  match right with
  | [] => NaN
  | (k', v) :: right' => if wk_eqb k k' then Num v else merge_lookup k right'
  end.

(** The aggregation ['first']: the first value that is not missing. *)
Fixpoint agg_first (l : list cell) : cell :=
  match l with
  | [] => NaN
  | c :: l' => if isna c then agg_first l' else c
  end.

(** A bucket of [get_weekly_data]. *)
Module General.
Record row : Type := mkrow {
  key : week_key;
  TFS_MIN : Q;
  TR_MIN : Q;
  TFC_MIN : Q;
  TDISPONIBLE : Q;
  PRODUCCION_AFECTADA : Q;
  DISPO_SEMANAL : fval;
  SEMANA_NUM : string
}.
End General.

(** A bucket of [get_weekly_extra_hours]. *)
Module Overtime.
Record row : Type := mkrow {
  key : week_key;
  H_EXTRA_MIN : Q;
  SEMANA_NUM : string
}.
End Overtime.

(** A bucket of [get_weekly_emergency_data]. *)
Module Emergency.
Record row : Type := mkrow {
  key : week_key;
  TR_MIN : Q;
  TFC_MIN : Q;
  TFS_MIN : Q;
  TDISPONIBLE : cell;
  NUM_ORDENES_EMERGENCIA : cell;
  NUM_ORDENES_EMERGENCIA_PARADA : Q;
  MTTR_SEMANAL : Q;
  SEMANA_NUM : string
}.
End Emergency.

(** [series.dt]: only for a column of timestamps (missing ones included). *)
Definition dt_accessor (col : list cell) : result (list (option timestamp)) :=
  traverse (fun c =>
              match c with
              | Ts t => Ok (Some t)
              | NaT => Ok None
              | _ => Raise AttributeError
              end) col.

(** The key of every row of [df_weekly], and whether its years are floats. *)
Definition week_keys (df : DataFrame) : result (bool * list (option week_key)) :=
  col ← getitem df "FECHA_DE_INICIO";
  dates ← dt_accessor col;
  let float_years := existsb (fun o => match o with None => true | Some _ => false end) dates in
  Ok (float_years, map (week_of float_years) dates).

(** [.agg({...})] names a column that the frame must have. *)
Definition require_col (df : DataFrame) (c : string) : result unit :=
  if has_col df c then Ok tt else Raise (KeyError c).

(** The sum of one column over the rows of a group. *)
Definition group_sum (c : string) (g : list (gmap string cell)) : result Q :=
  series_sum (map (at_col c) g).

(** ** [get_weekly_data] *)

Definition get_weekly_data (df : DataFrame) : result (list General.row) :=
  if df_empty df || negb (has_col df "FECHA_DE_INICIO") then Ok [] else
  '(float_years, keys) ← week_keys df;
  mask ← mask_eq df "PRODUCCION_AFECTADA" "SI";
  _ ← require_col df "TFS_MIN";
  _ ← require_col df "TR_MIN";
  _ ← require_col df "TFC_MIN";
  _ ← require_col df "TDISPONIBLE";
  weekly_data ←
    traverse (fun g : week_key * list (gmap string cell) =>
                tfs ← group_sum "TFS_MIN" (snd g);
                tr ← group_sum "TR_MIN" (snd g);
                tfc ← group_sum "TFC_MIN" (snd g);
                td ← group_sum "TDISPONIBLE" (snd g);
                let n :=
                  of_nat (length (List.filter
                                    (fun r => cell_eq_str "SI" (at_col "PRODUCCION_AFECTADA" r))
                                    (snd g))) in
                Ok (General.mkrow (fst g) tfs tr tfc td n
                      (fscale (fdiv (td - tfs) td) 100)
                      (semana_num float_years (fst g))))
             (groupby_week (select mask (combine keys (rows df))));
  Ok (sort_by (fun a b => String.leb (General.SEMANA_NUM a) (General.SEMANA_NUM b))
              weekly_data).

(** ** [get_weekly_extra_hours] *)

Definition get_weekly_extra_hours (df : DataFrame) : result (list Overtime.row) :=
  if df_empty df || negb (has_col df "FECHA_DE_INICIO") then Ok [] else
  '(float_years, keys) ← week_keys df;
  _ ← require_col df "H_EXTRA_MIN";
  weekly_extra_data ←
    traverse (fun g : week_key * list (gmap string cell) =>
                h ← group_sum "H_EXTRA_MIN" (snd g);
                Ok (Overtime.mkrow (fst g) h (semana_num float_years (fst g))))
             (groupby_week (combine keys (rows df)));
  Ok (sort_by (fun a b => String.leb (Overtime.SEMANA_NUM a) (Overtime.SEMANA_NUM b))
              weekly_extra_data).

(** ** [get_weekly_emergency_data] *)

Definition get_weekly_emergency_data (df : DataFrame) : result (list Emergency.row) :=
  if df_empty df || negb (has_col df "FECHA_DE_INICIO") then Ok [] else
  '(float_years, keys) ← week_keys df;
  emergency_mask ← mask_eq df "TIPO DE MTTO" "CORRECTIVO DE EMERGENCIA";
  let df_emergency := select emergency_mask (combine keys (rows df)) in
  match df_emergency with
  | [] => Ok []
  | _ :: _ =>
      _ ← require_col df "TR_MIN";
      _ ← require_col df "TFC_MIN";
      _ ← require_col df "TFS_MIN";
      _ ← require_col df "TDISPONIBLE";
      weekly_emergency_data ←
        traverse (fun g : week_key * list (gmap string cell) =>
                    tr ← group_sum "TR_MIN" (snd g);
                    tfc ← group_sum "TFC_MIN" (snd g);
                    tfs ← group_sum "TFS_MIN" (snd g);
                    Ok (fst g, (tr, tfc, tfs, agg_first (map (at_col "TDISPONIBLE") (snd g)))))
                 (groupby_week df_emergency);
      let weekly_emergency_counts := group_sizes (groupby_week df_emergency) in
      _ ← require_col df "PRODUCCION_AFECTADA";
      let parada_mask :=
        map (fun kr : option week_key * gmap string cell =>
               cell_eq_str "SI" (at_col "PRODUCCION_AFECTADA" (snd kr))) df_emergency in
      let weekly_emergency_parada_counts :=
        group_sizes (groupby_week (select parada_mask df_emergency)) in
      let merged :=
        map (fun kv : week_key * (Q * Q * Q * cell) =>
               let '(k, (tr, tfc, tfs, td)) := kv in
               let num := merge_lookup k weekly_emergency_counts in
               let parada :=
                 match merge_lookup k weekly_emergency_parada_counts with
                 | Num v => v
                 | _ => 0
                 end in
               let mttr :=
                 match num with
                 | Num n => if Qltb 0 n then tr / n else 0
                 | _ => 0
                 end in
               Emergency.mkrow k tr tfc tfs td num parada mttr (semana_num float_years k))
            weekly_emergency_data in
      Ok (sort_by (fun a b => String.leb (Emergency.SEMANA_NUM a) (Emergency.SEMANA_NUM b))
                  merged)
  end.

(** ** Vocabulary of the statements *)

(** A cell that [Series.sum()] accepts. *)
Definition is_number (c : cell) : bool :=
  match c with Num _ | NaN => true | _ => false end.

(** Every cell of the column is a number or missing, as after the
    numeric coercion of [clean_and_prepare_data]. *)
Definition numeric_column (df : DataFrame) (c : string) : Prop :=
  Forall (fun r => is_number (at_col c r) = true) (rows df).

(** The mapping holds, under the key, a number equal to [q]. *)
Definition has_value (m : gmap string Q) (k : string) (q : Q) : Prop :=
  exists v, m !! k = Some v /\ v == q.

(** A step of a filter pipeline: it keeps the columns, drops rows, and
    leaves alone every frame whose rows all survived it. *)
Definition is_stage (stage : DataFrame -> result DataFrame) : Prop :=
  forall df df',
    stage df = Ok df' ->
    columns df' = columns df /\
    incl (rows df') (rows df) /\
    forall d, columns d = columns df -> incl (rows d) (rows df') -> stage d = Ok d.

(** A start date that a pandas [Timestamp] can hold (years 1677 to 2262). *)
Definition timestamp_in_range (t : timestamp) : bool :=
  date_valid (ts_date t)
  && (1677 <=? year (ts_date t))%Z && (year (ts_date t) <=? 2262)%Z.

(** The start dates of a frame are real timestamps or missing. *)
Definition start_dates_in_range (df : DataFrame) : Prop :=
  forall r t, In r (rows df) -> at_col "FECHA_DE_INICIO" r = Ts t ->
              timestamp_in_range t = true.

(** The key of a bucket comes from a start date that a [Timestamp] can hold. *)
Definition key_ok (float_years : bool) (k : week_key) : Prop :=
  exists t, timestamp_in_range t = true /\ week_of float_years (Some t) = Some k.

(** The numeric sort key [year * 100 + week] of a bucket. *)
Definition sort_key (k : week_key) : Z := (AÑO k * 100 + SEMANA k)%Z.

(** The order of the pairs (year, week). *)
Definition key_lt (a b : week_key) : Prop :=
  (AÑO a < AÑO b)%Z \/ (AÑO a = AÑO b /\ (SEMANA a < SEMANA b)%Z).

(** A sequence of buckets in strictly ascending order of (year, week). *)
Definition strictly_ascending (keys : list week_key) : Prop :=
  StronglySorted key_lt keys.

(** The decimal digit [n] as a character. *)
Definition digit_char (n : Z) : ascii := ascii_of_N (Z.to_N (48 + n)).

(** ** What numpy and pandas provide *)

Class Host : Type := {
  (** [np.exp] *)
  np_exp : Q -> Q;
  np_exp_proper : Proper (Qeq ==> Qeq) np_exp;
  (** [pd.to_datetime] on a text or numeric scalar; [None] when it raises. *)
  to_datetime : cell -> option timestamp;
  (** [pd.to_numeric] on a scalar that is not a number already; [None]
      when it cannot be parsed. *)
  to_numeric : cell -> option Q;
  (** [str(x)] for a value that is not text. *)
  py_repr : cell -> string
}.
#[global] Existing Instance np_exp_proper.

Section Engine.
Context `{Host}.

(** [str(x)] on one cell. *)
Definition py_str (c : cell) : string :=
  match c with
  | Str s => s
  | other => py_repr other
  end.

(** ** [calculate_metrics] *)

Definition calculate_metrics (df : DataFrame) : result (gmap string Q) :=
  if df_empty df then Ok ∅ else
  td ← col_sum_or_0 df df "TDISPONIBLE";
  prod_afectada_mask ← mask_eq df "PRODUCCION_AFECTADA" "SI";
  let df_prod := loc df prod_afectada_mask in
  tfs ← col_sum_or_0 df df_prod "TFS_MIN";
  tr ← col_sum_or_0 df df_prod "TR_MIN";
  tfc ← col_sum_or_0 df df_prod "TFC_MIN";
  let to := py_max (td - tfs) 0 in
  let disponibilidad := if Qltb 0 td then (to / td) * 100 else 0 in
  let indisponibilidad := if Qltb 0 td then (tfs / td) * 100 else 0 in
  let total_fallas := of_nat (length (rows df_prod)) in
  let mtbf := if Qltb 0 total_fallas then td / total_fallas else 0 in
  let mttf := if Qltb 0 total_fallas then to / total_fallas else 0 in
  let mttr := if Qltb 0 total_fallas then tr / total_fallas else 0 in
  let landa := if Qltb 0 td then total_fallas / td else 0 in
  let mantenibilidad := if Qltb 0 landa then 1 - np_exp (- landa * td) else 0 in
  tipo_mtto_totals ← groupby_sum df "TIPO DE MTTO" "TR_MIN";
  let total_mtto := totals_sum tipo_mtto_totals in
  let pct (v : string) :=
    if Qltb 0 total_mtto then (totals_get tipo_mtto_totals v / total_mtto) * 100 else 0 in
  horas_extras ← col_sum_or_0 df df "H_EXTRA_MIN";
  Ok (<["horas_extras_acumuladas" := horas_extras]>
     (<["mms_pct" := pct "MEJORA DE SISTEMA"]>
     (<["mcp_pct" := pct "CORRECTIVO PROGRAMADO"]>
     (<["mce_pct" := pct "CORRECTIVO DE EMERGENCIA"]>
     (<["mbc_pct" := pct "BASADO EN CONDICIÓN"]>
     (<["mp_pct" := pct "PREVENTIVO"]>
     (<["mantenibilidad" := mantenibilidad]>
     (<["mttr" := mttr]>
     (<["mttf" := mttf]>
     (<["mtbf" := mtbf]>
     (<["total_fallas" := total_fallas]>
     (<["indisponibilidad" := indisponibilidad]>
     (<["disponibilidad" := disponibilidad]>
     (<["to" := to]>
     (<["tfc" := tfc]>
     (<["tr" := tr]>
     (<["tfs" := tfs]>
     (<["td" := td]> ∅)))))))))))))))))).

(** ** [calculate_reliability_metrics] *)

Definition calculate_reliability_metrics (df : DataFrame) : result (gmap string Q) :=
  if df_empty df then Ok ∅ else
  emergency_mask ← mask_eq df "TIPO DE MTTO" "CORRECTIVO DE EMERGENCIA";
  let df_emergency := loc df emergency_mask in
  if df_empty df_emergency then Ok ∅ else
  td ← col_sum_or_0 df df "TDISPONIBLE";
  tr_emergency ← col_sum_or_0 df_emergency df_emergency "TR_MIN";
  tfc_emergency ← col_sum_or_0 df_emergency df_emergency "TFC_MIN";
  tfs_emergency ← col_sum_or_0 df_emergency df_emergency "TFS_MIN";
  let total_fallas_emergency := of_nat (length (rows df_emergency)) in
  parada_mask ← mask_eq df_emergency "PRODUCCION_AFECTADA" "SI";
  let total_con_parada := of_nat (length (rows (loc df_emergency parada_mask))) in
  '(mtbf, mttr, mttf) ←
    (if Qltb 0 total_fallas_emergency then
       let mtbf := if Qltb 0 td then td / total_fallas_emergency else 0 in
       let mttr :=
         if Qltb 0 total_fallas_emergency then tr_emergency / total_fallas_emergency
         else 0 in
       emergency_prod_mask ← mask_eq df_emergency "PRODUCCION_AFECTADA" "SI";
       tfs_emergency_prod ←
         col_sum_or_0 df_emergency (loc df_emergency emergency_prod_mask) "TFS_MIN";
       let to_emergency := py_max (td - tfs_emergency_prod) 0 in
       let mttf :=
         if Qltb 0 total_fallas_emergency then to_emergency / total_fallas_emergency
         else 0 in
       Ok (mtbf, mttr, mttf)
     else Ok (0, 0, 0));
  let landa_emergency := if Qltb 0 td then total_fallas_emergency / td else 0 in
  let mantenibilidad_emergency :=
    if Qltb 0 landa_emergency then 1 - np_exp (- landa_emergency * td) else 0 in
  Ok (<["mantenibilidad_pct" := mantenibilidad_emergency * 100]>
     (<["mantenibilidad_emergency" := mantenibilidad_emergency]>
     (<["mttf_emergency" := mttf]>
     (<["mttr_emergency" := mttr]>
     (<["mtbf_emergency" := mtbf]>
     (<["total_fallas_emergency_con_parada" := total_con_parada]>
     (<["total_fallas_emergency" := total_fallas_emergency]>
     (<["tfs_emergency" := tfs_emergency]>
     (<["tfc_emergency" := tfc_emergency]>
     (<["tr_emergency" := tr_emergency]>
     (<["td" := td]> ∅))))))))))).

(** ** [apply_filters] *)

(** [df[df['X'].astype(str) == value]] *)
Definition filter_astype_str (df : DataFrame) (c value : string) : result DataFrame :=
  col ← getitem df c;
  Ok (loc df (map (fun x => String.eqb (py_str x) value) col)).

(** [(d.date >= fecha_inicio) & (d.date <= fecha_fin)]; a missing
    timestamp compares false. *)
Definition in_date_range (fecha_inicio fecha_fin : date) (o : option timestamp) : bool :=
  match o with
  | Some t => date_leb fecha_inicio (ts_date t) && date_leb (ts_date t) fecha_fin
  | None => false
  end.

Definition apply_filters (df : DataFrame)
    (equipo_filter conjunto_filter ubicacion_filter : string)
    (fecha_inicio fecha_fin : option date) : result DataFrame :=
  let filtered_df := df in
  filtered_df ←
    (if negb (String.eqb equipo_filter "Todos")
     then filter_astype_str filtered_df "EQUIPO" equipo_filter
     else Ok filtered_df);
  filtered_df ←
    (if negb (String.eqb conjunto_filter "Todos")
     then filter_astype_str filtered_df "CONJUNTO" conjunto_filter
     else Ok filtered_df);
  filtered_df ←
    (if negb (String.eqb ubicacion_filter "Todos")
     then (if has_col filtered_df "UBICACIÓN TÉCNICA"
           then filter_astype_str filtered_df "UBICACIÓN TÉCNICA" ubicacion_filter
           else Ok filtered_df)
     else Ok filtered_df);
  match fecha_inicio, fecha_fin with
  | Some fi, Some ff =>
      col ← getitem filtered_df "FECHA_DE_INICIO";
      dates ← dt_accessor col;
      Ok (loc filtered_df (map (in_date_range fi ff) dates))
  | _, _ => Ok filtered_df
  end.

(** ** [calcular_duracion_minutos] *)

(** [(fin - inicio).total_seconds()] *)
Definition total_seconds (fin inicio : timestamp) : Q :=
  inject_Z ((ymd2ord (ts_date fin) - ymd2ord (ts_date inicio)) * 86400)
  + (ts_secs fin - ts_secs inicio).

(** [fecha.strftime('%Y-%m-%d') + ' ' + str(hora)] parsed by
    [pd.to_datetime]; [None] when an exception is raised on the way (a
    missing date has no [strftime]). *)
Definition combine_date_time (fecha hora : cell) : option timestamp :=
  match fecha with
  | Ts f => to_datetime (Str (strftime_ymd (ts_date f) ++ " " ++ py_str hora))
  | _ => None
  end.

Definition calcular_duracion_minutos (fecha_inicio hora_inicio fecha_fin hora_fin : cell) : Q :=
  match combine_date_time fecha_inicio hora_inicio with
  | Some datetime_inicio =>
      match combine_date_time fecha_fin hora_fin with
      | Some datetime_fin =>
          let duracion := total_seconds datetime_fin datetime_inicio / 60 in
          py_max duracion 0
      | None => 0
      end
  | None => 0
  end.

(** ** [clean_and_prepare_data] *)

Definition rename_columns : list (string * string) :=
  [ ("FECHA DE INICIO", "FECHA_DE_INICIO");
    ("FECHA DE FIN", "FECHA_DE_FIN");
    ("Tiempo Prog (min)", "TIEMPO_PROG_MIN");
    ("PRODUCCIÓN AFECTADA (SI-NO)", "PRODUCCION_AFECTADA");
    ("TIEMPO ESTIMADO DIARIO (min)", "TDISPONIBLE");
    ("TR (min)", "TR_MIN");
    ("TFC (min)", "TFC_MIN");
    ("TFS (min)", "TFS_MIN");
    ("h normal (min)", "H_NORMAL_MIN");
    ("h extra (min)", "H_EXTRA_MIN");
    ("HORA PARADA DE MÁQUINA", "HORA_PARADA");
    ("HORA INICIO", "HORA_INICIO");
    ("HORA FINAL", "HORA_FINAL");
    ("HORA DE ARRANQUE", "HORA_ARRANQUE") ].

Fixpoint rename_label (mapping : list (string * string)) (c : string) : string :=
  match mapping with
  | [] => c
  | (old, new) :: mapping' => if String.eqb c old then new else rename_label mapping' c
  end.

(** [df.rename(columns=mapping)], for a frame that does not hold both an
    old label and its new name. *)
Definition df_rename (mapping : list (string * string)) (df : DataFrame) : DataFrame :=
  {| columns := map (rename_label mapping) (columns df);
     rows := map (kmap (M1 := gmap string) (M2 := gmap string) (rename_label mapping))
                 (rows df) |}.

(** [df['X'] = values] *)
Definition assign (df : DataFrame) (c : string) (values : list cell) : DataFrame :=
  {| columns := if has_col df c then columns df else (columns df ++ [c])%list;
     rows := zip_with (fun r v => <[c := v]> r) (rows df) values |}.

(** [x['X']] inside [df.apply(lambda x: ..., axis=1)] *)
Definition row_get (df : DataFrame) (x : gmap string cell) (c : string) : result cell :=
  if has_col df c then Ok (at_col c x) else Raise (KeyError c).

(** [pd.to_datetime(series)], one cell at a time. *)
Definition to_datetime_cell (c : cell) : result cell :=
  match c with
  | Ts t => Ok (Ts t)
  | NaN | NaT => Ok NaT
  | other =>
      match to_datetime other with
      | Some t => Ok (Ts t)
      | None => Raise ValueError
      end
  end.

(** [x == 0] on one cell. *)
Definition cell_eq_0 (c : cell) : bool :=
  match c with Num q => Qeq_bool q 0 | _ => false end.

(** [pd.to_numeric(series, errors='coerce').fillna(0)], one cell at a time. *)
Definition coerce_numeric (c : cell) : cell :=
  match c with
  | Num q => Num q
  | NaN | NaT => Num 0
  | other => Num (default 0 (to_numeric other))
  end.

Definition numeric_columns : list string :=
  ["TR_MIN"; "TFC_MIN"; "TFS_MIN"; "TDISPONIBLE"; "TIEMPO_PROG_MIN"; "H_EXTRA_MIN"].

(** The first two steps of [clean_and_prepare_data]: the canonical
    column names, and one name for the technical location. *)
Definition unify_column_names (df : DataFrame) : DataFrame :=
  let df_clean := df_rename rename_columns df in
  if negb (has_col df_clean "UBICACIÓN TÉCNICA") && has_col df_clean "UBICACION TECNICA"
  then df_rename [("UBICACION TECNICA", "UBICACIÓN TÉCNICA")] df_clean
  else if negb (has_col df_clean "UBICACIÓN TÉCNICA")
          && has_col df_clean "Ubicación Técnica"
  then df_rename [("Ubicación Técnica", "UBICACIÓN TÉCNICA")] df_clean
  else df_clean.

(** One turn of the loop over [numeric_columns]. *)
Definition coerce_column (d : DataFrame) (col : string) : DataFrame :=
  if has_col d col
  then assign d col (map (fun x => coerce_numeric (at_col col x)) (rows d))
  else d.

Definition clean_and_prepare_data (df : DataFrame) : result DataFrame :=
  let df_clean := unify_column_names df in
  col ← getitem df_clean "FECHA_DE_INICIO";
  fechas ← traverse to_datetime_cell col;
  let df_clean := assign df_clean "FECHA_DE_INICIO" fechas in
  col ← getitem df_clean "FECHA_DE_FIN";
  fechas ← traverse to_datetime_cell col;
  let df_clean := assign df_clean "FECHA_DE_FIN" fechas in
  calculado ←
    traverse (fun x =>
                fecha_inicio ← row_get df_clean x "FECHA_DE_INICIO";
                hora_inicio ← row_get df_clean x "HORA_INICIO";
                fecha_fin ← row_get df_clean x "FECHA_DE_FIN";
                hora_fin ← row_get df_clean x "HORA_FINAL";
                Ok (Num (calcular_duracion_minutos fecha_inicio hora_inicio
                                                   fecha_fin hora_fin)))
             (rows df_clean);
  let df_clean := assign df_clean "TR_MIN_CALCULADO" calculado in
  let df_clean :=
    if has_col df_clean "TR_MIN" then
      assign df_clean "TR_MIN"
        (map (fun x =>
                if isna (at_col "TR_MIN" x) || cell_eq_0 (at_col "TR_MIN" x)
                then at_col "TR_MIN_CALCULADO" x
                else at_col "TR_MIN" x)
             (rows df_clean))
    else assign df_clean "TR_MIN" (map (at_col "TR_MIN_CALCULADO") (rows df_clean)) in
  let df_clean := fold_left coerce_column numeric_columns df_clean in
  if has_col df_clean "STATUS"
  then Ok (loc df_clean (map (fun x => cell_eq_str "CULMINADO" (at_col "STATUS" x))
                             (rows df_clean)))
  else Ok df_clean.

End Engine.

(** ** A small host

    An executable instance of [Host], enough to run the engine on
    examples: [np.exp] as a Taylor polynomial, and parsers for decimal
    integers and for timestamps written [YYYY-MM-DD HH:MM] or
    [YYYY-MM-DD HH:MM:SS]. *)

Module Sample.

Definition exp_taylor (q : Q) : Q :=
  1 + q + q * q * (1 # 2) + q * q * q * (1 # 6).

Definition digit_of (c : ascii) : option Z :=
  let n := Z.of_N (N_of_ascii c) in
  if ((48 <=? n) && (n <=? 57))%Z then Some (n - 48)%Z else None.

Fixpoint parse_digits (s : string) (acc : Z) : option Z :=
  match s with
  | EmptyString => Some acc
  | String c s' =>
      match digit_of c with
      | Some d => parse_digits s' (acc * 10 + d)%Z
      | None => None
      end
  end.

Definition parse_int (s : string) : option Z :=
  match s with
  | EmptyString => None
  | _ => parse_digits s 0
  end.

(** [s.split(sep)] *)
Fixpoint split (sep : ascii) (s : string) : list string :=
  match s with
  | EmptyString => [EmptyString]
  | String c s' =>
      if Ascii.eqb c sep then EmptyString :: split sep s'
      else match split sep s' with
           | [] => [String c EmptyString]
           | w :: ws => String c w :: ws
           end
  end.

Definition parse_date (s : string) : option date :=
  match split "-" s with
  | [y; m; d] =>
      match parse_int y, parse_int m, parse_int d with
      | Some y, Some m, Some d =>
          if date_valid (mkdate y m d) then Some (mkdate y m d) else None
      | _, _, _ => None
      end
  | _ => None
  end.

Definition parse_time (s : string) : option Q :=
  match List.map parse_int (split ":" s) with
  | [Some h; Some m] =>
      if ((h <? 24) && (m <? 60))%Z then Some (inject_Z (h * 3600 + m * 60)) else None
  | [Some h; Some m; Some sec] =>
      if ((h <? 24) && (m <? 60) && (sec <? 60))%Z
      then Some (inject_Z (h * 3600 + m * 60 + sec)) else None
  | _ => None
  end.

Definition parse_datetime (c : cell) : option timestamp :=
  match c with
  | Str s =>
      match split " " s with
      | [d; t] =>
          match parse_date d, parse_time t with
          | Some d, Some secs => Some (mkts d secs)
          | _, _ => None
          end
      | [d] =>
          match parse_date d with
          | Some d => Some (mkts d 0)
          | None => None
          end
      | _ => None
      end
  | _ => None
  end.

Definition parse_number (c : cell) : option Q :=
  match c with
  | Str s => option_map inject_Z (parse_int s)
  | _ => None
  end.

Definition repr (c : cell) : string :=
  match c with
  | NaN => "nan"
  | NaT => "NaT"
  | Num q =>
      if (Z.pos (Qden q) =? 1)%Z then str_int (Qnum q)
      else str_int (Qnum q) ++ "/" ++ str_int (Z.pos (Qden q))
  | Ts t => strftime_ymd (ts_date t)
  | Str s => s
  end.

#[export] Instance host : Host.
Proof.
  refine {| np_exp := exp_taylor;
            to_datetime := parse_datetime;
            to_numeric := parse_number;
            py_repr := repr |}.
  intros x y Hxy. unfold exp_taylor. rewrite Hxy. reflexivity.
Defined.

(** A row from its cells. *)
Definition row (cells : list (string * cell)) : gmap string cell :=
  list_to_map cells.

End Sample.


(** ** Example frames *)

Module Examples.
Import Sample.

Definition record (equipo tipo afectada : string) (tr td tfs tfc he : Q)
  : gmap string cell :=
  row [ ("EQUIPO", Str equipo); ("TIPO DE MTTO", Str tipo);
        ("PRODUCCION_AFECTADA", Str afectada); ("STATUS", Str "CULMINADO");
        ("TR_MIN", Num tr); ("TDISPONIBLE", Num td); ("TFS_MIN", Num tfs);
        ("TFC_MIN", Num tfc); ("H_EXTRA_MIN", Num he) ].

Definition record_columns : list string :=
  [ "EQUIPO"; "TIPO DE MTTO"; "PRODUCCION_AFECTADA"; "STATUS"; "TR_MIN";
    "TDISPONIBLE"; "TFS_MIN"; "TFC_MIN"; "H_EXTRA_MIN" ].

(** The three completed records of the scenario of the specification;
    what the scenario leaves open is a parameter. *)
Definition scenario (td2 tfs1 tfc1 he1 tfs2 tfc2 he2 tfs3 tfc3 he3 : Q) : DataFrame :=
  mkdf record_columns
    [ record "A" "CORRECTIVO DE EMERGENCIA" "SI" 60 1440 tfs1 tfc1 he1;
      record "A" "PREVENTIVO" "NO" 30 td2 tfs2 tfc2 he2;
      record "B" "CORRECTIVO DE EMERGENCIA" "NO" 20 1440 tfs3 tfc3 he3 ].

Definition scenario_45 : DataFrame := scenario 0 45 0 0 0 0 0 0 0 0.

(** One stoppage that lasts longer than the available time of its day. *)
Definition over_budget : DataFrame :=
  mkdf record_columns
    [ record "A" "CORRECTIVO DE EMERGENCIA" "SI" 600 480 600 600 0 ].

(** A frame without the production-affected flag. *)
Definition no_flag_column : DataFrame :=
  mkdf ["EQUIPO"; "TIPO DE MTTO"; "TR_MIN"; "TDISPONIBLE"]
    [ row [ ("EQUIPO", Str "A"); ("TIPO DE MTTO", Str "PREVENTIVO");
            ("TR_MIN", Num 30); ("TDISPONIBLE", Num 1440) ] ].

(** A frame without the maintenance-type column. *)
Definition no_type_column : DataFrame :=
  mkdf ["EQUIPO"; "PRODUCCION_AFECTADA"; "TR_MIN"; "TDISPONIBLE"]
    [ row [ ("EQUIPO", Str "A"); ("PRODUCCION_AFECTADA", Str "SI");
            ("TR_MIN", Num 30); ("TDISPONIBLE", Num 1440) ] ].

(** A frame with only the columns that the calculator cannot do without. *)
Definition bare : DataFrame :=
  mkdf ["TIPO DE MTTO"; "PRODUCCION_AFECTADA"; "TR_MIN"]
    [ row [ ("TIPO DE MTTO", Str "PREVENTIVO"); ("PRODUCCION_AFECTADA", Str "SI");
            ("TR_MIN", Num 30) ] ].

(** Events with a start date, from a source without technical location. *)
Definition event (equipo conjunto tipo afectada : string) (fecha : date)
    (tr td tfs he : Q) : gmap string cell :=
  row [ ("EQUIPO", Str equipo); ("CONJUNTO", Str conjunto); ("TIPO DE MTTO", Str tipo);
        ("PRODUCCION_AFECTADA", Str afectada); ("STATUS", Str "CULMINADO");
        ("FECHA_DE_INICIO", Ts (mkts fecha 0));
        ("TR_MIN", Num tr); ("TDISPONIBLE", Num td); ("TFS_MIN", Num tfs);
        ("TFC_MIN", Num tr); ("H_EXTRA_MIN", Num he) ].

Definition event_columns : list string :=
  [ "EQUIPO"; "CONJUNTO"; "TIPO DE MTTO"; "PRODUCCION_AFECTADA"; "STATUS";
    "FECHA_DE_INICIO"; "TR_MIN"; "TDISPONIBLE"; "TFS_MIN"; "TFC_MIN"; "H_EXTRA_MIN" ].

(** Four stoppages around the turn of the year 2024/2025. *)
Definition year_end : DataFrame :=
  mkdf event_columns
    [ event "A" "MOTOR" "CORRECTIVO DE EMERGENCIA" "SI" (mkdate 2025 1 8) 60 1440 60 0;
      event "B" "BOMBA" "CORRECTIVO DE EMERGENCIA" "SI" (mkdate 2024 12 24) 30 1440 45 30;
      event "A" "MOTOR" "PREVENTIVO" "SI" (mkdate 2024 3 5) 20 1440 20 0;
      event "A" "BOMBA" "CORRECTIVO DE EMERGENCIA" "SI" (mkdate 2025 1 2) 15 1440 15 10 ].

(** One stoppage on a day without available time. *)
Definition zero_available : DataFrame :=
  mkdf event_columns
    [ event "A" "MOTOR" "CORRECTIVO DE EMERGENCIA" "SI" (mkdate 2024 3 5) 30 0 30 0 ].

(** A raw sheet in which somebody typed the repair time with its unit. *)
Definition raw_columns : list string :=
  [ "EQUIPO"; "TIPO DE MTTO"; "STATUS"; "FECHA DE INICIO"; "HORA INICIO";
    "FECHA DE FIN"; "HORA FINAL"; "TR (min)" ].

Definition raw_event (inicio fin : string) (tr : cell) : gmap string cell :=
  row [ ("EQUIPO", Str "A"); ("TIPO DE MTTO", Str "PREVENTIVO");
        ("STATUS", Str "CULMINADO");
        ("FECHA DE INICIO", Ts (mkts (mkdate 2024 3 5) 0)); ("HORA INICIO", Str inicio);
        ("FECHA DE FIN", Ts (mkts (mkdate 2024 3 5) 0)); ("HORA FINAL", Str fin);
        ("TR (min)", tr) ].

Definition raw_sheet : DataFrame :=
  mkdf raw_columns
    [ raw_event "10:00" "10:45" (Str "30 min");
      raw_event "08:00" "08:20" (Num 25);
      raw_event "09:00" "09:30" NaN;
      raw_event "11:00" "10:00" (Num 0) ].

End Examples.

(** ** The ISO year *)

(** The year of [date.isocalendar()]: the calendar year, but for the
    first days of January that belong to the last week of the year before
    and the last days of December that belong to week 1 of the year after. *)
Definition iso_year (d : date) : Z :=
  let y := year d in
  let today := ymd2ord d in
  let week := ((today - isoweek1monday y) / 7)%Z in
  if (week <? 0)%Z then (y - 1)%Z
  else if ((52 <=? week) && (isoweek1monday (y + 1) <=? today))%Z then (y + 1)%Z
  else y.

(** The bucket that the weekly views give to a start date: the calendar
    year of the date with its ISO week number. *)
Definition bucket_of (k : week_key) (t : timestamp) : Prop :=
  AÑO k = year (ts_date t) /\ SEMANA k = iso_week (ts_date t).

(** * The page ([main]) and the loader

    What [main] and [load_data_from_google_sheets] compute between the
    engine and the widgets: the fallback of the loader, the options of the
    three select boxes, the default date window, the status lights, the
    order of the maintenance types in the legends and the top-10 tables.
    Widgets, charts and the session state are not modelled. *)

(** [series.dropna()] *)
Definition dropna (l : list cell) : list cell :=
  List.filter (fun c => negb (isna c)) l.

(** Two cells that are one value for a pandas hash table, and for the
    operator [in] of a Python list (identity, then [==]): equal cells,
    and a missing value with itself. *)
Definition cell_same (a b : cell) : bool :=
  match a, b with
  | NaN, NaN | NaT, NaT => true
  | _, _ => cell_eqb a b
  end.

(** [series.unique()]: the values in first-seen order. *)
Definition series_unique (l : list cell) : list cell :=
  fold_left (fun seen c => if existsb (cell_same c) seen then seen else (seen ++ [c])%list)
            l [].
















Section Page.
Context `{Host}.

(** [["Todos"] + sorted([str(x) for x in values])] *)
Definition filter_options (values : list cell) : list string :=
  "Todos" :: sort_by String.leb (map py_str values).

Definition ubicaciones (data : DataFrame) : list string :=
  if has_col data "UBICACIÓN TÉCNICA"
  then filter_options
         (series_unique (dropna (map (at_col "UBICACIÓN TÉCNICA") (rows data))))
  else ["Todos"].




End Page.

(** ** More vocabulary of the statements *)

(** The sum of a quantity over a list of buckets. *)
Definition sum_of {A : Type} (f : A -> Q) (l : list A) : Q :=
  fold_right (fun x s => f x + s) 0 l.

(** The value of a numeric cell, 0 for a missing one. *)
Definition number_of (c : cell) : Q :=
  match c with Num q => q | _ => 0 end.

(** A record that affected production. *)
Definition affects_production (r : gmap string cell) : bool :=
  cell_eq_str "SI" (at_col "PRODUCCION_AFECTADA" r).

(** An emergency order. *)
Definition is_emergency (r : gmap string cell) : bool :=
  cell_eq_str "CORRECTIVO DE EMERGENCIA" (at_col "TIPO DE MTTO" r).







Section FilterVocabulary.
Context `{Host}.




End FilterVocabulary.

(** ** An example sheet *)

Module Sheets.
Import Sample.




(** Four stoppages of the year 2024 and of its turn: the ISO calendar
    puts 2024-12-30 in week 1 of 2025. *)
Definition year_turn : DataFrame :=
  mkdf Examples.event_columns
    [ Examples.event "A" "MOTOR" "CORRECTIVO DE EMERGENCIA" "SI" (mkdate 2024 1 2)
        30 1440 30 0;
      Examples.event "A" "MOTOR" "CORRECTIVO DE EMERGENCIA" "SI" (mkdate 2024 12 23)
        60 1440 60 0;
      Examples.event "A" "MOTOR" "CORRECTIVO DE EMERGENCIA" "SI" (mkdate 2024 12 30)
        11 1440 11 0;
      Examples.event "A" "MOTOR" "CORRECTIVO DE EMERGENCIA" "SI" (mkdate 2025 1 6)
        10 1440 10 0 ].


End Sheets.

(** * Properties *)

(** ** Results and numbers *)

Lemma unwrap_Ok {A : Type} (d : A) (r : result A) :
  is_ok r = true -> r = Ok (unwrap d r).
Proof. destruct r; [reflexivity | discriminate]. Qed.

Lemma Qltb_lt x y : Qltb x y = true <-> x < y.
Proof.
  unfold Qltb. rewrite negb_true_iff.
  split; intros Hxy.
  - apply Qnot_le_lt. intros Hle. apply Qle_bool_iff in Hle. congruence.
  - destruct (Qle_bool y x) eqn:E; [|reflexivity].
    apply Qle_bool_iff in E. exfalso. exact (Qlt_not_le _ _ Hxy E).
Qed.

Lemma Qltb_ge x y : Qltb x y = false <-> y <= x.
Proof.
  unfold Qltb. rewrite negb_false_iff. apply Qle_bool_iff.
Qed.

Lemma bind_Ok {A B} (r : result A) (f : A -> result B) (b : B) :
  (r ≫= f) = Ok b -> exists a, r = Ok a /\ f a = Ok b.
Proof. destruct r as [a|e]; simpl; [eauto | discriminate]. Qed.

(** Splits a hypothesis [(x ← r; k) = Ok b]. *)
Ltac inv_bind H :=
  let a := fresh "v" in
  let Ha := fresh "Hv" in
  apply bind_Ok in H; destruct H as (a & Ha & H).

Lemma py_max_0_nonneg a : 0 <= a -> py_max a 0 = a.
Proof.
  intros Ha. unfold py_max.
  destruct (Qltb a 0) eqn:E; [|reflexivity].
  apply Qltb_lt in E. exfalso. exact (Qlt_not_le _ _ E Ha).
Qed.

Lemma py_max_ge_0 a : 0 <= py_max a 0.
Proof.
  unfold py_max. destruct (Qltb a 0) eqn:E.
  - apply Qle_refl.
  - now apply Qltb_ge in E.
Qed.

(** ** Frames *)

Lemma select_map_filter {A : Type} (p : A -> bool) (l : list A) :
  select (map p l) l = List.filter p l.
Proof.
  induction l as [|x l IH]; [reflexivity|].
  simpl. destruct (p x); now rewrite IH.
Qed.

Lemma select_incl {A : Type} (mask : list bool) (l : list A) :
  incl (select mask l) l.
Proof.
  revert mask. induction l as [|x l IH]; intros [|b mask]; simpl;
    try (intros y []).
  destruct b.
  - intros y [<-|Hy]; [now left | right; exact (IH mask y Hy)].
  - intros y Hy. right. exact (IH mask y Hy).
Qed.


Lemma getitem_Ok df c :
  has_col df c = true -> getitem df c = Ok (map (at_col c) (rows df)).
Proof. intros E. unfold getitem. now rewrite E. Qed.

Lemma getitem_KeyError df c :
  has_col df c = false -> getitem df c = Raise (KeyError c).
Proof. intros E. unfold getitem. now rewrite E. Qed.

Lemma series_sum_numbers l :
  Forall (fun c => is_number c = true) l -> exists q, series_sum l = Ok q.
Proof.
  induction 1 as [|c l Hc _ [q IH]]; [now exists 0|].
  simpl. rewrite IH.
  destruct c; try discriminate; simpl; eauto.
Qed.

Lemma col_sum_or_0_total df sub c :
  columns sub = columns df ->
  incl (rows sub) (rows df) ->
  (has_col df c = true -> numeric_column df c) ->
  exists q, col_sum_or_0 df sub c = Ok q /\ (has_col df c = false -> q = 0).
Proof.
  intros Hcols Hrows Hnum. unfold col_sum_or_0.
  destruct (has_col df c) eqn:E.
  - unfold col_sum. rewrite getitem_Ok by (unfold has_col; now rewrite Hcols).
    destruct (series_sum_numbers (map (at_col c) (rows sub))) as [q Hq].
    + apply Forall_map. apply List.Forall_forall. intros r Hr.
      pose proof (Hnum eq_refl) as Hall. unfold numeric_column in Hall.
      rewrite List.Forall_forall in Hall. apply Hall. now apply Hrows.
    + exists q. split; [exact Hq | discriminate].
  - exists 0. split; [reflexivity | reflexivity].
Qed.

Lemma group_sums_total kvs acc :
  Forall (fun kv : cell * cell => is_number (snd kv) = true) kvs ->
  exists r, group_sums kvs acc = Ok r.
Proof.
  intros Hall. revert acc.
  induction Hall as [|[k c] kvs Hc _ IH]; intros acc; [now exists acc|].
  simpl. destruct (isna k); [apply IH|].
  simpl in Hc. destruct c; try discriminate; simpl; apply IH.
Qed.

Lemma groupby_sum_total df key val :
  has_col df key = true -> has_col df val = true -> numeric_column df val ->
  exists r, groupby_sum df key val = Ok r.
Proof.
  intros Hk Hv Hnum. unfold groupby_sum.
  rewrite (getitem_Ok _ _ Hk), (getitem_Ok _ _ Hv). simpl.
  apply group_sums_total.
  unfold numeric_column in Hnum.
  revert Hnum. generalize (rows df) as l.
  induction l as [|r l IH]; intros Hall; simpl; [constructor|].
  inversion Hall; subst. constructor; [assumption | now apply IH].
Qed.

Section Metrics.
Context {host : Host}.

(** ** The metrics calculator *)

(** What a returned mapping holds, by key. *)
Lemma calculate_metrics_inv df m :
  df_empty df = false ->
  calculate_metrics df = Ok m ->
  exists td mask tfs tr,
    col_sum_or_0 df df "TDISPONIBLE" = Ok td /\
    mask_eq df "PRODUCCION_AFECTADA" "SI" = Ok mask /\
    col_sum_or_0 df (loc df mask) "TFS_MIN" = Ok tfs /\
    col_sum_or_0 df (loc df mask) "TR_MIN" = Ok tr /\
    let n := of_nat (length (rows (loc df mask))) in
    let to := py_max (td - tfs) 0 in
    let landa := if Qltb 0 td then n / td else 0 in
    m !! "td" = Some td /\
    m !! "tfs" = Some tfs /\
    m !! "tr" = Some tr /\
    m !! "to" = Some to /\
    m !! "disponibilidad" = Some (if Qltb 0 td then (to / td) * 100 else 0) /\
    m !! "indisponibilidad" = Some (if Qltb 0 td then (tfs / td) * 100 else 0) /\
    m !! "total_fallas" = Some n /\
    m !! "mttr" = Some (if Qltb 0 n then tr / n else 0) /\
    m !! "mantenibilidad" = Some (if Qltb 0 landa then 1 - np_exp (- landa * td) else 0).
Proof.
  intros Hne Hm. unfold calculate_metrics in Hm. rewrite Hne in Hm.
  inv_bind Hm. inv_bind Hm. inv_bind Hm. inv_bind Hm. inv_bind Hm. inv_bind Hm. inv_bind Hm.
  injection Hm as <-.
  exists v, v0, v1, v2. cbv zeta.
  repeat split; try assumption; reflexivity.
Qed.

Lemma calculate_metrics_empty df :
  df_empty df = true -> calculate_metrics df = Ok ∅.
Proof. intros E. unfold calculate_metrics. now rewrite E. Qed.

Lemma calculate_metrics_lookup_nonempty df m k (v : Q) :
  calculate_metrics df = Ok m -> m !! k = Some v -> df_empty df = false.
Proof.
  intros Hm Hk. destruct (df_empty df) eqn:E; [|reflexivity].
  rewrite (calculate_metrics_empty _ E) in Hm. injection Hm as <-.
  rewrite lookup_empty in Hk. discriminate.
Qed.

(** C1 (amended). For every record set with available time TD > 0 and
    downtime TFS <= TD the outputs of the Metrics Calculator satisfy
    availability% + unavailability% = 100, where availability% = TO / TD *
    100 with TO = max(TD - TFS, 0) and unavailability% = TFS / TD * 100. *)
Theorem availability_plus_unavailability df m td tfs d i :
  calculate_metrics df = Ok m ->
  m !! "td" = Some td -> m !! "tfs" = Some tfs ->
  m !! "disponibilidad" = Some d -> m !! "indisponibilidad" = Some i ->
  0 < td -> tfs <= td ->
  m !! "to" = Some (py_max (td - tfs) 0) /\
  d == (py_max (td - tfs) 0 / td) * 100 /\
  i == (tfs / td) * 100 /\
  d + i == 100.
Proof.
  intros Hm Htd Htfs Hd Hi Hpos Hle.
  pose proof (calculate_metrics_lookup_nonempty _ _ _ _ Hm Htd) as Hne.
  destruct (calculate_metrics_inv _ _ Hne Hm)
    as (td' & mask & tfs' & tr & _ & _ & _ & _ & Hfacts).
  cbv zeta in Hfacts.
  destruct Hfacts as (Htd' & Htfs' & _ & Hto & Hd' & Hi' & _).
  rewrite Htd in Htd'. injection Htd' as <-.
  rewrite Htfs in Htfs'. injection Htfs' as <-.
  rewrite Hd in Hd'. injection Hd' as ->.
  rewrite Hi in Hi'. injection Hi' as ->.
  assert (Qltb 0 td = true) as -> by now apply Qltb_lt.
  assert (0 <= td - tfs) as Hnn.
  { apply (Qplus_le_l _ _ tfs). ring_simplify. exact Hle. }
  assert (~ td == 0) as Hnz.
  { intros E. rewrite E in Hpos. exact (Qlt_irrefl _ Hpos). }
  split; [exact Hto|]. split; [reflexivity|]. split; [reflexivity|].
  rewrite (py_max_0_nonneg _ Hnn). field. exact Hnz.
Qed.

(** What the reliability calculator returns when it finds emergency orders. *)
Lemma calculate_reliability_metrics_inv df m :
  calculate_reliability_metrics df = Ok m ->
  m <> ∅ ->
  exists td mask tr,
    col_sum_or_0 df df "TDISPONIBLE" = Ok td /\
    mask_eq df "TIPO DE MTTO" "CORRECTIVO DE EMERGENCIA" = Ok mask /\
    col_sum_or_0 (loc df mask) (loc df mask) "TR_MIN" = Ok tr /\
    exists parada,
    mask_eq (loc df mask) "PRODUCCION_AFECTADA" "SI" = Ok parada /\
    let n := of_nat (length (rows (loc df mask))) in
    let landa := if Qltb 0 td then n / td else 0 in
    let mant := if Qltb 0 landa then 1 - np_exp (- landa * td) else 0 in
    m !! "td" = Some td /\
    m !! "tr_emergency" = Some tr /\
    m !! "total_fallas_emergency" = Some n /\
    m !! "total_fallas_emergency_con_parada"
      = Some (of_nat (length (rows (loc (loc df mask) parada)))) /\
    m !! "mttr_emergency" = Some (if Qltb 0 n then tr / n else 0) /\
    m !! "mantenibilidad_emergency" = Some mant /\
    m !! "mantenibilidad_pct" = Some (mant * 100).
Proof.
  intros Hm Hne. unfold calculate_reliability_metrics in Hm.
  destruct (df_empty df); [injection Hm as <-; congruence|].
  inv_bind Hm.
  destruct (df_empty (loc df v)); [injection Hm as <-; congruence|].
  inv_bind Hm. inv_bind Hm. inv_bind Hm. inv_bind Hm. inv_bind Hm. inv_bind Hm.
  destruct v5 as [[mtbf mttr] mttf].
  injection Hm as <-.
  exists v0, v, v1. do 3 (split; [assumption|]).
  exists v4. split; [assumption|]. cbv zeta.
  destruct (Qltb 0 (of_nat (length (rows (loc df v))))) eqn:En.
  - inv_bind Hv5. inv_bind Hv5. injection Hv5 as <- <- <-.
    repeat split; reflexivity.
  - injection Hv5 as <- <- <-. repeat split; reflexivity.
Qed.

(** [landa * td] is the failure count again. *)
Lemma maintainability_value (td n : Q) :
  0 < td -> 0 < n ->
  (let landa := if Qltb 0 td then n / td else 0 in
   if Qltb 0 landa then 1 - np_exp (- landa * td) else 0) == 1 - np_exp (- n).
Proof.
  intros Htd Hn. cbv zeta.
  assert (Qltb 0 td = true) as -> by now apply Qltb_lt.
  assert (~ td == 0) as Hnz.
  { intros E. rewrite E in Htd. exact (Qlt_irrefl _ Htd). }
  assert (0 < n / td) as Hl.
  { apply Qlt_shift_div_l; [exact Htd|]. now rewrite Qmult_0_l. }
  assert (Qltb 0 (n / td) = true) as -> by now apply Qltb_lt.
  assert (- (n / td) * td == - n) as -> by (field; exact Hnz).
  reflexivity.
Qed.

(** C9. For every record set with TD > 0 and failure_count > 0 the
    maintainability of the Metrics Calculator is 1 - exp(- failure_count),
    whatever TD is; and with TD > 0 and a positive emergency count the
    maintainability percentage of the Reliability Calculator is
    (1 - exp(- failure_count_emergency)) * 100. *)
Theorem maintainability_cancels df :
  (forall m td n,
      calculate_metrics df = Ok m ->
      m !! "td" = Some td -> m !! "total_fallas" = Some n ->
      0 < td -> 0 < n ->
      exists v, m !! "mantenibilidad" = Some v /\ v == 1 - np_exp (- n))
  /\
  (forall m td n,
      calculate_reliability_metrics df = Ok m ->
      m !! "td" = Some td -> m !! "total_fallas_emergency" = Some n ->
      0 < td -> 0 < n ->
      exists v, m !! "mantenibilidad_pct" = Some v /\ v == (1 - np_exp (- n)) * 100).
Proof.
  split; intros m td n Hm Htd Hn Hpos Hnpos.
  - pose proof (calculate_metrics_lookup_nonempty _ _ _ _ Hm Htd) as Hne.
    destruct (calculate_metrics_inv _ _ Hne Hm)
      as (td' & mask & tfs & tr & _ & _ & _ & _ & Hfacts).
    cbv zeta in Hfacts.
    destruct Hfacts as (Htd' & _ & _ & _ & _ & _ & Hn' & _ & Hmant).
    rewrite Htd in Htd'. injection Htd' as <-.
    rewrite Hn in Hn'. injection Hn' as ->.
    eexists. split; [exact Hmant|].
    exact (maintainability_value td _ Hpos Hnpos).
  - assert (m <> ∅) as Hne.
    { intros ->. rewrite lookup_empty in Htd. discriminate. }
    destruct (calculate_reliability_metrics_inv _ _ Hm Hne)
      as (td' & mask & tr & _ & _ & _ & parada & _ & Hfacts).
    cbv zeta in Hfacts.
    destruct Hfacts as (Htd' & _ & Hn' & _ & _ & _ & Hpct).
    rewrite Htd in Htd'. injection Htd' as <-.
    rewrite Hn in Hn'. injection Hn' as ->.
    eexists. split; [exact Hpct|].
    pose proof (maintainability_value td _ Hpos Hnpos) as E. cbv zeta in E.
    rewrite E. reflexivity.
Qed.

End Metrics.


(** ** Missing columns, the empty mapping, and the scenario *)

Section MetricsReturns.
Context {host : Host}.

Lemma mask_eq_Ok df c v :
  has_col df c = true ->
  mask_eq df c v = Ok (map (fun r => cell_eq_str v (at_col c r)) (rows df)).
Proof.
  intros E. unfold mask_eq. rewrite (getitem_Ok _ _ E). simpl.
  now rewrite map_map.
Qed.

(** Without the production-affected flag the calculator raises, whatever
    the other columns hold. *)
Lemma calculate_metrics_needs_flag df td :
  df_empty df = false ->
  col_sum_or_0 df df "TDISPONIBLE" = Ok td ->
  has_col df "PRODUCCION_AFECTADA" = false ->
  calculate_metrics df = Raise (KeyError "PRODUCCION_AFECTADA").
Proof.
  intros Hne Htd Hflag. unfold calculate_metrics.
  rewrite Hne, Htd. simpl. unfold mask_eq.
  now rewrite (getitem_KeyError _ _ Hflag).
Qed.

(** C3 (amended). For a non-empty record set that has the
    production-affected flag, the maintenance-type column and the
    repair-time column, and whose numeric columns hold numbers, the Metrics
    Calculator returns a non-empty mapping without raising, and each of the
    columns available time, downtime, fault-correction time and overtime
    that is absent contributes 0. *)
Theorem absent_numeric_columns_count_as_zero df :
  df_empty df = false ->
  has_col df "PRODUCCION_AFECTADA" = true ->
  has_col df "TIPO DE MTTO" = true ->
  has_col df "TR_MIN" = true ->
  (forall c, In c ["TDISPONIBLE"; "TFS_MIN"; "TR_MIN"; "TFC_MIN"; "H_EXTRA_MIN"] ->
             has_col df c = true -> numeric_column df c) ->
  exists m,
    calculate_metrics df = Ok m /\ m <> ∅ /\
    (has_col df "TDISPONIBLE" = false -> m !! "td" = Some 0) /\
    (has_col df "TFS_MIN" = false -> m !! "tfs" = Some 0) /\
    (has_col df "TFC_MIN" = false -> m !! "tfc" = Some 0) /\
    (has_col df "H_EXTRA_MIN" = false -> m !! "horas_extras_acumuladas" = Some 0).
Proof.
  intros Hne Hflag Htipo Htr Hnum.
  assert (forall c mask,
             In c ["TDISPONIBLE"; "TFS_MIN"; "TR_MIN"; "TFC_MIN"; "H_EXTRA_MIN"] ->
             exists q, col_sum_or_0 df (loc df mask) c = Ok q
                       /\ (has_col df c = false -> q = 0)) as Hsub.
  { intros c mask Hc. apply col_sum_or_0_total; [reflexivity | apply select_incl | auto]. }
  assert (forall c,
             In c ["TDISPONIBLE"; "TFS_MIN"; "TR_MIN"; "TFC_MIN"; "H_EXTRA_MIN"] ->
             exists q, col_sum_or_0 df df c = Ok q
                       /\ (has_col df c = false -> q = 0)) as Hall.
  { intros c Hc. apply col_sum_or_0_total; [reflexivity | apply incl_refl | auto]. }
  destruct (Hall "TDISPONIBLE") as (td & Etd & Ztd); [simpl; tauto|].
  destruct (Hall "H_EXTRA_MIN") as (he & Ehe & Zhe); [simpl; tauto|].
  set (mask := map (fun r => cell_eq_str "SI" (at_col "PRODUCCION_AFECTADA" r)) (rows df)).
  destruct (Hsub "TFS_MIN" mask) as (tfs & Etfs & Ztfs); [simpl; tauto|].
  destruct (Hsub "TR_MIN" mask) as (tr & Etr & _); [simpl; tauto|].
  destruct (Hsub "TFC_MIN" mask) as (tfc & Etfc & Ztfc); [simpl; tauto|].
  destruct (groupby_sum_total df "TIPO DE MTTO" "TR_MIN" Htipo Htr) as (totals & Etot).
  { apply Hnum; [simpl; tauto | exact Htr]. }
  unfold calculate_metrics.
  rewrite Hne, Etd. cbn [mbind result_bind].
  rewrite (mask_eq_Ok _ _ _ Hflag). fold mask. cbn [mbind result_bind].
  rewrite Etfs. cbn [mbind result_bind].
  rewrite Etr. cbn [mbind result_bind].
  rewrite Etfc. cbn [mbind result_bind].
  rewrite Etot. cbn [mbind result_bind].
  rewrite Ehe. cbn [mbind result_bind].
  eexists. split; [reflexivity|].
  split; [apply insert_non_empty|].
  repeat split; intros Habs.
  - now rewrite (Ztd Habs).
  - now rewrite (Ztfs Habs).
  - now rewrite (Ztfc Habs).
  - now rewrite (Zhe Habs).
Qed.

(** The reliability calculator on a frame with emergency orders. *)
Lemma calculate_reliability_metrics_some df mask m :
  df_empty df = false ->
  mask_eq df "TIPO DE MTTO" "CORRECTIVO DE EMERGENCIA" = Ok mask ->
  df_empty (loc df mask) = false ->
  calculate_reliability_metrics df = Ok m ->
  exists td, m !! "td" = Some td.
Proof.
  intros Hne Hmask Hsome Hm. unfold calculate_reliability_metrics in Hm.
  rewrite Hne, Hmask in Hm. cbn [mbind result_bind] in Hm. rewrite Hsome in Hm.
  inv_bind Hm. inv_bind Hm. inv_bind Hm. inv_bind Hm. inv_bind Hm. inv_bind Hm.
  destruct v4 as [[mtbf mttr] mttf].
  injection Hm as <-. now exists v.
Qed.

Lemma df_empty_loc df mask :
  df_empty df = false ->
  df_empty (loc df mask) = true <-> select mask (rows df) = [].
Proof.
  unfold df_empty, loc. simpl.
  destruct (columns df); [discriminate|]. intros _.
  destruct (select mask (rows df)); split; congruence.
Qed.

Lemma filter_nil_Forall {A : Type} (p : A -> bool) (l : list A) :
  List.filter p l = [] <-> Forall (fun x => p x = false) l.
Proof.
  induction l as [|x l IH]; simpl.
  - split; [constructor | reflexivity].
  - destruct (p x) eqn:E; split.
    + discriminate.
    + intros Hall. inversion Hall; congruence.
    + intros Hl. constructor; [exact E | now apply IH].
    + intros Hall. inversion Hall; subst. now apply IH.
Qed.

(** C6. The Metrics Calculator returns the empty mapping exactly when its
    input is empty; the Reliability Calculator, on a record set that
    carries the maintenance type, returns the empty mapping exactly when
    its input is empty or holds no emergency-corrective record. *)
Theorem empty_mapping_convention df :
  has_col df "TIPO DE MTTO" = true ->
  (calculate_metrics df = Ok ∅ <-> df_empty df = true)
  /\
  (calculate_reliability_metrics df = Ok ∅ <->
   df_empty df = true \/
   Forall (fun r => cell_eq_str "CORRECTIVO DE EMERGENCIA" (at_col "TIPO DE MTTO" r) = false)
          (rows df)).
Proof.
  intros Htipo. split; split.
  - intros Hm. destruct (df_empty df) eqn:Hne; [reflexivity|].
    destruct (calculate_metrics_inv _ _ Hne Hm)
      as (td & mask & tfs & tr & _ & _ & _ & _ & Hfacts).
    cbv zeta in Hfacts. destruct Hfacts as (Htd & _).
    rewrite lookup_empty in Htd. discriminate.
  - apply calculate_metrics_empty.
  - intros Hm. destruct (df_empty df) eqn:Hne; [now left | right].
    pose proof (mask_eq_Ok df _ "CORRECTIVO DE EMERGENCIA" Htipo) as Hmask.
    destruct (df_empty (loc df (map (fun r => cell_eq_str "CORRECTIVO DE EMERGENCIA"
                                        (at_col "TIPO DE MTTO" r)) (rows df)))) eqn:Hsome.
    + apply (df_empty_loc _ _ Hne) in Hsome.
      rewrite select_map_filter in Hsome. now apply filter_nil_Forall in Hsome.
    + destruct (calculate_reliability_metrics_some _ _ _ Hne Hmask Hsome Hm) as [td Htd].
      rewrite lookup_empty in Htd. discriminate.
  - intros [Hempty|Hnone]; unfold calculate_reliability_metrics.
    + now rewrite Hempty.
    + destruct (df_empty df) eqn:Hne; [reflexivity|].
      rewrite (mask_eq_Ok _ _ _ Htipo). cbn [mbind result_bind].
      apply filter_nil_Forall in Hnone. rewrite <- select_map_filter in Hnone.
      apply (df_empty_loc _ _ Hne) in Hnone. now rewrite Hnone.
Qed.

(** C4. On the three completed records of the scenario the Metrics
    Calculator returns failure_count = 1, TR = 60 and MTTR = 60, and the
    Reliability Calculator returns failure_count_emergency = 2,
    failure_count_emergency_with_stoppage = 1, TR_emergency = 80 and
    MTTR_emergency = 40, whatever the fields that the scenario leaves open. *)
Theorem scenario_values (td2 tfs1 tfc1 he1 tfs2 tfc2 he2 tfs3 tfc3 he3 : Q) :
  let df := Examples.scenario td2 tfs1 tfc1 he1 tfs2 tfc2 he2 tfs3 tfc3 he3 in
  (exists m, calculate_metrics df = Ok m /\
             has_value m "total_fallas" 1 /\
             has_value m "tr" 60 /\
             has_value m "mttr" 60)
  /\
  (exists m, calculate_reliability_metrics df = Ok m /\
             has_value m "total_fallas_emergency" 2 /\
             has_value m "total_fallas_emergency_con_parada" 1 /\
             has_value m "tr_emergency" 80 /\
             has_value m "mttr_emergency" 40).
Proof.
  intros df. split.
  - exists (unwrap ∅ (calculate_metrics df)).
    split; [apply unwrap_Ok; reflexivity|].
    repeat split; (eexists; split; [vm_compute; reflexivity | reflexivity]).
  - exists (unwrap ∅ (calculate_reliability_metrics df)).
    split; [apply unwrap_Ok; reflexivity|].
    repeat split; (eexists; split; [vm_compute; reflexivity | reflexivity]).
Qed.

End MetricsReturns.

(** ** The calculators on the example frames *)

Section MetricsExamples.
Import Examples.
#[local] Existing Instance Sample.host.

(** C1 (counterexample). One production-affecting record with 480 minutes
    of available time and 600 minutes of downtime: TD > 0, the operating
    time is clamped to 0, availability is 0 % and unavailability 125 %. *)
Lemma availability_identity_fails_when_clamped :
  let m := unwrap ∅ (calculate_metrics over_budget) in
  df_empty over_budget = false /\
  calculate_metrics over_budget = Ok m /\
  has_value m "td" 480 /\
  has_value m "tfs" 600 /\
  has_value m "to" 0 /\
  has_value m "disponibilidad" 0 /\
  has_value m "indisponibilidad" 125 /\
  ~ (forall d i, m !! "disponibilidad" = Some d -> m !! "indisponibilidad" = Some i ->
                 d + i == 100).
Proof.
  intros m. split; [reflexivity|].
  split; [apply unwrap_Ok; reflexivity|].
  assert (has_value m "disponibilidad" 0) as Hd
      by (eexists; split; [vm_compute; reflexivity | reflexivity]).
  assert (has_value m "indisponibilidad" 125) as Hi
      by (eexists; split; [vm_compute; reflexivity | reflexivity]).
  do 3 (split; [eexists; split; [vm_compute; reflexivity | reflexivity]|]).
  split; [exact Hd|]. split; [exact Hi|].
  intros Hsum.
  destruct Hd as (d & Hd & Ed), Hi as (i & Hi & Ei).
  specialize (Hsum _ _ Hd Hi). rewrite Ed, Ei in Hsum. discriminate Hsum.
Qed.

(** C1 (amended), on the scenario with 45 minutes of downtime. *)
Lemma availability_plus_unavailability_witness :
  let m := unwrap ∅ (calculate_metrics scenario_45) in
  exists d i,
    m !! "disponibilidad" = Some d /\ m !! "indisponibilidad" = Some i /\
    d + i == 100.
Proof.
  intros m.
  assert (calculate_metrics scenario_45 = Ok m) as Hm by (apply unwrap_Ok; reflexivity).
  assert (m !! "td" = Some 2880) as Htd by (vm_compute; reflexivity).
  assert (m !! "tfs" = Some 45) as Htfs by (vm_compute; reflexivity).
  assert (exists d, m !! "disponibilidad" = Some d) as [d Hd]
      by (eexists; vm_compute; reflexivity).
  assert (exists i, m !! "indisponibilidad" = Some i) as [i Hi]
      by (eexists; vm_compute; reflexivity).
  exists d, i. split; [exact Hd|]. split; [exact Hi|].
  apply (availability_plus_unavailability scenario_45 m 2880 45 d i Hm Htd Htfs Hd Hi).
  - reflexivity.
  - discriminate.
Defined.

(** C3 (counterexample). A non-empty record set without the
    production-affected flag, and one without the maintenance-type column:
    the Metrics Calculator raises [KeyError] on both. *)
Lemma missing_flag_or_type_column_raises :
  df_empty no_flag_column = false /\
  has_col no_flag_column "PRODUCCION_AFECTADA" = false /\
  calculate_metrics no_flag_column = Raise (KeyError "PRODUCCION_AFECTADA") /\
  df_empty no_type_column = false /\
  has_col no_type_column "TIPO DE MTTO" = false /\
  calculate_metrics no_type_column = Raise (KeyError "TIPO DE MTTO").
Proof. repeat split; vm_compute; reflexivity. Qed.

(** C3 (amended), on a frame that has only the three required columns. *)
Lemma absent_numeric_columns_count_as_zero_witness :
  exists m,
    calculate_metrics bare = Ok m /\ m <> ∅ /\
    m !! "td" = Some 0 /\ m !! "tfs" = Some 0 /\
    m !! "tfc" = Some 0 /\ m !! "horas_extras_acumuladas" = Some 0.
Proof.
  destruct (absent_numeric_columns_count_as_zero bare)
    as (m & Hm & Hne & Htd & Htfs & Htfc & Hhe); try reflexivity.
  { intros c Hc _. unfold numeric_column.
    repeat constructor; simpl in Hc;
      repeat (destruct Hc as [<-|Hc]; [vm_compute; reflexivity|]); destruct Hc. }
  exists m. repeat split; auto.
Defined.

(** C6, on a frame without rows and on a frame without emergency orders. *)
Lemma empty_mapping_convention_witness :
  (calculate_metrics (mkdf record_columns []) = Ok ∅
   <-> df_empty (mkdf record_columns []) = true)
  /\ (calculate_reliability_metrics bare = Ok ∅ <->
      df_empty bare = true \/
      Forall (fun r => cell_eq_str "CORRECTIVO DE EMERGENCIA" (at_col "TIPO DE MTTO" r) = false)
             (rows bare)).
Proof.
  split.
  - apply (empty_mapping_convention (mkdf record_columns [])). reflexivity.
  - apply (empty_mapping_convention bare). reflexivity.
Defined.

(** C9, on the scenario: one failure, two emergency orders. *)
Lemma maintainability_cancels_witness :
  let m := unwrap ∅ (calculate_metrics scenario_45) in
  let r := unwrap ∅ (calculate_reliability_metrics scenario_45) in
  has_value m "mantenibilidad" (1 - np_exp (- (1)))
  /\ has_value r "mantenibilidad_pct" ((1 - np_exp (- (2))) * 100).
Proof.
  intros m r.
  assert (calculate_metrics scenario_45 = Ok m) as Hm by (apply unwrap_Ok; reflexivity).
  assert (calculate_reliability_metrics scenario_45 = Ok r) as Hr
      by (apply unwrap_Ok; reflexivity).
  destruct (maintainability_cancels scenario_45) as [Hmet Hrel].
  split.
  - apply (Hmet m 2880 1 Hm); try reflexivity; vm_compute; reflexivity.
  - apply (Hrel r 2880 2 Hr); try reflexivity; vm_compute; reflexivity.
Defined.

End MetricsExamples.

(** ** The filter engine *)

Section Filters.
Context {host : Host}.

Lemma filter_all_true {A : Type} (p : A -> bool) (l : list A) :
  (forall x, In x l -> p x = true) -> List.filter p l = l.
Proof.
  induction l as [|x l IH]; intros Hall; [reflexivity|].
  simpl. rewrite (Hall x (or_introl eq_refl)).
  f_equal. apply IH. intros y Hy. apply Hall. now right.
Qed.

Lemma df_eta df : {| columns := columns df; rows := rows df |} = df.
Proof. now destruct df. Qed.

Lemma has_col_same_columns d df c :
  columns d = columns df -> has_col d c = has_col df c.
Proof. intros E. unfold has_col. now rewrite E. Qed.

Lemma is_stage_id : is_stage (fun df => Ok df).
Proof.
  intros df df' E. injection E as <-.
  split; [reflexivity|]. split; [apply incl_refl|]. reflexivity.
Qed.

Lemma is_stage_bind (first second : DataFrame -> result DataFrame) :
  is_stage first -> is_stage second -> is_stage (fun df => first df ≫= second).
Proof.
  intros H1 H2 df df'' E. inv_bind E.
  destruct (H1 _ _ Hv) as (Hc1 & Hr1 & Hs1).
  destruct (H2 _ _ E) as (Hc2 & Hr2 & Hs2).
  split; [congruence|]. split; [eapply incl_tran; eassumption|].
  intros d Hc Hr.
  rewrite (Hs1 d Hc (incl_tran Hr Hr2)). simpl.
  apply Hs2; [congruence | exact Hr].
Qed.

Lemma filter_astype_str_rows df c value :
  has_col df c = true ->
  filter_astype_str df c value
  = Ok {| columns := columns df;
          rows := List.filter (fun r => String.eqb (py_str (at_col c r)) value) (rows df) |}.
Proof.
  intros E. unfold filter_astype_str. rewrite (getitem_Ok _ _ E). simpl.
  unfold loc. rewrite map_map.
  now rewrite (select_map_filter (fun r => String.eqb (py_str (at_col c r)) value)).
Qed.

Lemma is_stage_astype_str c value :
  is_stage (fun df => filter_astype_str df c value).
Proof.
  intros df df' E.
  destruct (has_col df c) eqn:Hc.
  - rewrite (filter_astype_str_rows _ _ _ Hc) in E. injection E as <-. simpl.
    split; [reflexivity|]. split; [apply incl_filter|].
    intros d Hcols Hrows.
    rewrite filter_astype_str_rows by (now rewrite (has_col_same_columns _ _ _ Hcols)).
    rewrite filter_all_true; [apply f_equal, df_eta|].
    intros r Hr. apply Hrows in Hr. now apply filter_In in Hr.
  - unfold filter_astype_str in E. now rewrite (getitem_KeyError _ _ Hc) in E.
Qed.

(** The technical-location step: skipped when the frame has no such column. *)
Lemma is_stage_ubicacion value :
  is_stage (fun df =>
              if has_col df "UBICACIÓN TÉCNICA"
              then filter_astype_str df "UBICACIÓN TÉCNICA" value
              else Ok df).
Proof.
  intros df df' E.
  destruct (has_col df "UBICACIÓN TÉCNICA") eqn:Hc.
  - destruct (is_stage_astype_str _ _ _ _ E) as (Hc' & Hr' & Hs).
    split; [exact Hc'|]. split; [exact Hr'|].
    intros d Hcols Hrows.
    rewrite (has_col_same_columns _ _ _ Hcols), Hc. now apply Hs.
  - injection E as <-.
    split; [reflexivity|]. split; [apply incl_refl|].
    intros d Hcols _. now rewrite (has_col_same_columns _ _ _ Hcols), Hc.
Qed.

Lemma is_stage_if (b : bool) (stage : DataFrame -> result DataFrame) :
  is_stage stage -> is_stage (fun df => if b then stage df else Ok df).
Proof. destruct b; [trivial | intros _; apply is_stage_id]. Qed.

Lemma dt_accessor_Ok col dates :
  dt_accessor col = Ok dates ->
  dates = map (fun c => match c with Ts t => Some t | _ => None end) col
  /\ Forall (fun c => match c with Ts _ | NaT => True | _ => False end) col.
Proof.
  unfold dt_accessor. revert dates.
  induction col as [|c col IH]; intros dates E; simpl in E.
  - injection E as <-. split; [reflexivity | constructor].
  - inv_bind E. inv_bind E. injection E as <-.
    destruct (IH _ Hv0) as [-> Hall].
    destruct c; try discriminate; injection Hv as <-;
      (split; [reflexivity | constructor; [exact I | exact Hall]]).
Qed.

Lemma dt_accessor_total col :
  Forall (fun c => match c with Ts _ | NaT => True | _ => False end) col ->
  dt_accessor col = Ok (map (fun c => match c with Ts t => Some t | _ => None end) col).
Proof.
  unfold dt_accessor.
  induction 1 as [|c col Hc _ IH]; [reflexivity|].
  simpl. rewrite IH. destruct c; try contradiction; reflexivity.
Qed.

(** The date-range step as a filter on rows. *)
Lemma date_range_rows df fi ff df' :
  (col ← getitem df "FECHA_DE_INICIO";
   dates ← dt_accessor col;
   Ok (loc df (map (in_date_range fi ff) dates))) = Ok df' ->
  has_col df "FECHA_DE_INICIO" = true /\
  df' = {| columns := columns df;
           rows := List.filter
                     (fun r => in_date_range fi ff
                                 match at_col "FECHA_DE_INICIO" r with
                                 | Ts t => Some t
                                 | _ => None
                                 end) (rows df) |}.
Proof.
  intros E. destruct (has_col df "FECHA_DE_INICIO") eqn:Hc.
  - split; [reflexivity|].
    rewrite (getitem_Ok _ _ Hc) in E. simpl in E. inv_bind E.
    apply dt_accessor_Ok in Hv as [-> _]. injection E as <-.
    unfold loc. rewrite !map_map.
    now rewrite (select_map_filter
                   (fun r => in_date_range fi ff
                               match at_col "FECHA_DE_INICIO" r with
                               | Ts t => Some t
                               | _ => None
                               end)).
  - now rewrite (getitem_KeyError _ _ Hc) in E.
Qed.

Lemma is_stage_date_range fecha_inicio fecha_fin :
  is_stage (fun df =>
              match fecha_inicio, fecha_fin with
              | Some fi, Some ff =>
                  col ← getitem df "FECHA_DE_INICIO";
                  dates ← dt_accessor col;
                  Ok (loc df (map (in_date_range fi ff) dates))
              | _, _ => Ok df
              end).
Proof.
  destruct fecha_inicio as [fi|]; [|apply is_stage_id].
  destruct fecha_fin as [ff|]; [|apply is_stage_id].
  intros df df' E.
  apply date_range_rows in E as [Hc ->]. simpl.
  split; [reflexivity|]. split; [apply incl_filter|].
  intros d Hcols Hrows.
  assert (forall r, In r (rows d) ->
                    exists t, at_col "FECHA_DE_INICIO" r = Ts t
                              /\ in_date_range fi ff (Some t) = true) as Hts.
  { intros r Hr. apply Hrows in Hr. apply filter_In in Hr as [_ Hr].
    destruct (at_col "FECHA_DE_INICIO" r); try discriminate. eauto. }
  rewrite getitem_Ok by (now rewrite (has_col_same_columns _ _ _ Hcols)). simpl.
  rewrite dt_accessor_total.
  - simpl. unfold loc. rewrite !map_map.
    rewrite (select_map_filter
               (fun r => in_date_range fi ff
                           match at_col "FECHA_DE_INICIO" r with
                           | Ts t => Some t
                           | _ => None
                           end)).
    rewrite filter_all_true; [apply f_equal, df_eta|].
    intros r Hr. destruct (Hts r Hr) as (t & -> & Ht). exact Ht.
  - apply Forall_map. apply List.Forall_forall. intros r Hr.
    destruct (Hts r Hr) as (t & -> & _). exact I.
Qed.

Lemma is_stage_apply_filters equipo conjunto ubicacion fecha_inicio fecha_fin :
  is_stage (fun df => apply_filters df equipo conjunto ubicacion fecha_inicio fecha_fin).
Proof.
  unfold apply_filters.
  apply (is_stage_bind
           (fun df => if negb (String.eqb equipo "Todos")
                      then filter_astype_str df "EQUIPO" equipo else Ok df)).
  { apply is_stage_if, is_stage_astype_str. }
  apply (is_stage_bind
           (fun df => if negb (String.eqb conjunto "Todos")
                      then filter_astype_str df "CONJUNTO" conjunto else Ok df)).
  { apply is_stage_if, is_stage_astype_str. }
  apply (is_stage_bind
           (fun df => if negb (String.eqb ubicacion "Todos")
                      then (if has_col df "UBICACIÓN TÉCNICA"
                            then filter_astype_str df "UBICACIÓN TÉCNICA" ubicacion
                            else Ok df)
                      else Ok df)).
  { apply (is_stage_if _ _ (is_stage_ubicacion ubicacion)). }
  apply is_stage_date_range.
Qed.

(** C8. Filtering is idempotent: the Filter Engine applied to its own
    output, with the same four predicates, returns that output. *)
Theorem apply_filters_idempotent df equipo conjunto ubicacion fecha_inicio fecha_fin out :
  apply_filters df equipo conjunto ubicacion fecha_inicio fecha_fin = Ok out ->
  apply_filters out equipo conjunto ubicacion fecha_inicio fecha_fin = Ok out.
Proof.
  intros E.
  destruct (is_stage_apply_filters equipo conjunto ubicacion fecha_inicio fecha_fin _ _ E)
    as (_ & _ & Hstable).
  apply Hstable.
  - destruct (is_stage_apply_filters equipo conjunto ubicacion fecha_inicio fecha_fin _ _ E)
      as (Hcols & _). exact Hcols.
  - apply incl_refl.
Qed.

(** C10. On a record set without the technical-location column the
    technical-location filter is skipped, whatever its value: the Filter
    Engine returns what it returns for the sentinel, the equipment,
    assembly and date-range filters being applied as usual. *)
Theorem apply_filters_skips_missing_ubicacion
    df equipo conjunto ubicacion fecha_inicio fecha_fin :
  has_col df "UBICACIÓN TÉCNICA" = false ->
  apply_filters df equipo conjunto ubicacion fecha_inicio fecha_fin
  = apply_filters df equipo conjunto "Todos" fecha_inicio fecha_fin.
Proof.
  intros Hc. unfold apply_filters.
  destruct (if negb (String.eqb equipo "Todos")
            then filter_astype_str df "EQUIPO" equipo else Ok df) as [d1|e] eqn:E1;
    [|reflexivity].
  assert (columns d1 = columns df) as Hc1.
  { exact (proj1 (is_stage_if _ _ (is_stage_astype_str "EQUIPO" equipo) _ _ E1)). }
  cbn [mbind result_bind].
  destruct (if negb (String.eqb conjunto "Todos")
            then filter_astype_str d1 "CONJUNTO" conjunto else Ok d1) as [d2|e] eqn:E2;
    [|reflexivity].
  assert (columns d2 = columns d1) as Hc2.
  { exact (proj1 (is_stage_if _ _ (is_stage_astype_str "CONJUNTO" conjunto) _ _ E2)). }
  cbn [mbind result_bind].
  assert (has_col d2 "UBICACIÓN TÉCNICA" = false) as ->.
  { rewrite (has_col_same_columns d2 df); [exact Hc | congruence]. }
  now destruct (negb (String.eqb ubicacion "Todos")).
Qed.

End Filters.

(** ** The filter engine on the example frames *)

Section FiltersExamples.
Import Examples.
#[local] Existing Instance Sample.host.

(** C8, for equipment A between 2024-12-01 and 2025-01-31. *)
Lemma apply_filters_idempotent_witness :
  let fecha_inicio := Some (mkdate 2024 12 1) in
  let fecha_fin := Some (mkdate 2025 1 31) in
  let out := unwrap year_end (apply_filters year_end "A" "Todos" "Todos" fecha_inicio fecha_fin) in
  length (rows out) = 2%nat /\
  apply_filters out "A" "Todos" "Todos" fecha_inicio fecha_fin = Ok out.
Proof.
  intros fecha_inicio fecha_fin out.
  split; [vm_compute; reflexivity|].
  apply (apply_filters_idempotent year_end).
  apply unwrap_Ok. vm_compute; reflexivity.
Defined.

(** C10, on a frame without the technical-location column. *)
Lemma apply_filters_skips_missing_ubicacion_witness :
  let fecha_inicio := Some (mkdate 2024 12 1) in
  let fecha_fin := Some (mkdate 2025 1 31) in
  has_col year_end "UBICACIÓN TÉCNICA" = false /\
  apply_filters year_end "A" "Todos" "PLANTA 1" fecha_inicio fecha_fin
  = apply_filters year_end "A" "Todos" "Todos" fecha_inicio fecha_fin /\
  length (rows (unwrap year_end
                  (apply_filters year_end "A" "Todos" "PLANTA 1" fecha_inicio fecha_fin)))
  = 2%nat.
Proof.
  intros fecha_inicio fecha_fin.
  split; [reflexivity|]. split.
  - apply (apply_filters_skips_missing_ubicacion year_end). reflexivity.
  - vm_compute; reflexivity.
Defined.

End FiltersExamples.

(** ** Sorting *)

Section Sorting.
Context {A : Type} (leb : A -> A -> bool).
Hypothesis leb_total : forall a b, leb a b = true \/ leb b a = true.

Lemma insert_by_perm x l : Permutation (insert_by leb x l) (x :: l).
Proof.
  induction l as [|y l IH]; simpl; [reflexivity|].
  destruct (leb x y); [reflexivity|].
  rewrite IH. apply perm_swap.
Qed.

Lemma sort_by_perm l : Permutation (sort_by leb l) l.
Proof.
  induction l as [|x l IH]; simpl; [reflexivity|].
  unfold sort_by in *. simpl. rewrite insert_by_perm. now constructor.
Qed.

Lemma insert_by_sorted x l :
  Sorted (fun a b => leb a b = true) l ->
  Sorted (fun a b => leb a b = true) (insert_by leb x l).
Proof.
  induction 1 as [|y l Hl IH Hhd]; simpl.
  - repeat constructor.
  - destruct (leb x y) eqn:E.
    + constructor; [now constructor | now constructor].
    + constructor; [exact IH|].
      destruct (leb_total x y) as [Hxy|Hyx]; [congruence|].
      destruct l as [|z l]; simpl; [now constructor|].
      destruct (leb x z); constructor; [exact Hyx | now inversion Hhd].
Qed.

Lemma sort_by_sorted l : Sorted (fun a b => leb a b = true) (sort_by leb l).
Proof.
  induction l as [|x l IH]; [constructor|].
  unfold sort_by in *. simpl. now apply insert_by_sorted.
Qed.

End Sorting.

Lemma traverse_Ok {A B : Type} (f : A -> result B) (l : list A) (l' : list B) :
  traverse f l = Ok l' -> Forall2 (fun x y => f x = Ok y) l l'.
Proof.
  revert l'. induction l as [|x l IH]; intros l' E; simpl in E.
  - injection E as <-. constructor.
  - inv_bind E. inv_bind E. injection E as <-. constructor; auto.
Qed.

Lemma Forall2_In_r {A B : Type} (P : A -> B -> Prop) l l' y :
  Forall2 P l l' -> In y l' -> exists x, In x l /\ P x y.
Proof.
  induction 1 as [|x y' l l' Hxy _ IH]; intros Hy; [destruct Hy|].
  destruct Hy as [<-|Hy].
  - exists x. split; [now left | exact Hxy].
  - destruct (IH Hy) as (x' & Hx' & HP). exists x'. split; [now right | exact HP].
Qed.

(** ** The calendar *)

Local Open Scope Z_scope.

Lemma forallb_Z_range (P : Z -> bool) (lo : Z) (n : nat) :
  forallb (fun i => P (lo + Z.of_nat i)) (seq 0 n) = true ->
  forall z, lo <= z < lo + Z.of_nat n -> P z = true.
Proof.
  intros Hall z Hz. rewrite forallb_forall in Hall.
  replace z with (lo + Z.of_nat (Z.to_nat (z - lo))) by lia.
  apply Hall. apply in_seq. lia.
Qed.

Lemma day_of_year_bounds d :
  date_valid d = true ->
  1 <= days_before_month (year d) (month d) + day d <= 366.
Proof.
  destruct d as [y m dd]. unfold date_valid. simpl.
  rewrite !andb_true_iff, !Z.leb_le. intros [[[Hm1 Hm12] Hd1] Hd].
  assert (m = 1 \/ m = 2 \/ m = 3 \/ m = 4 \/ m = 5 \/ m = 6 \/ m = 7 \/ m = 8
          \/ m = 9 \/ m = 10 \/ m = 11 \/ m = 12) as Em by lia.
  unfold days_before_month, days_in_month in *.
  repeat (destruct Em as [->|Em]); try subst m;
    simpl in *; destruct (is_leap y); lia.
Qed.

Lemma div_step k p : 0 < k -> (p + 1) / k = p / k \/ (p + 1) / k = p / k + 1.
Proof.
  intros Hk.
  pose proof (Z.div_mod p k ltac:(lia)).
  pose proof (Z.mod_pos_bound p k Hk).
  pose proof (Z.div_mod (p + 1) k ltac:(lia)).
  pose proof (Z.mod_pos_bound (p + 1) k Hk).
  nia.
Qed.

Lemma days_before_year_step y :
  365 <= days_before_year (y + 1) - days_before_year y <= 366.
Proof.
  unfold days_before_year.
  replace (y + 1 - 1) with (y - 1 + 1) by lia.
  generalize (y - 1). intros p.
  replace ((p + 1) / 100) with ((p + 1) / 4 / 25)
    by (rewrite Z.div_div by lia; reflexivity).
  replace ((p + 1) / 400) with ((p + 1) / 4 / 25 / 4)
    by (rewrite !Z.div_div by lia; reflexivity).
  replace (p / 100) with (p / 4 / 25) by (rewrite Z.div_div by lia; reflexivity).
  replace (p / 400) with (p / 4 / 25 / 4) by (rewrite !Z.div_div by lia; reflexivity).
  destruct (div_step 4 p ltac:(lia)) as [->| ->]; [lia|].
  destruct (div_step 25 (p / 4) ltac:(lia)) as [->| ->]; [lia|].
  destruct (div_step 4 (p / 4 / 25) ltac:(lia)) as [->| ->]; lia.
Qed.

Lemma isoweek1monday_bounds y :
  days_before_year y - 2 <= isoweek1monday y <= days_before_year y + 4.
Proof.
  unfold isoweek1monday, ymd2ord. cbn [year month day].
  change (days_before_month y 1) with 0.
  generalize (days_before_year y). intros b.
  pose proof (Z.mod_pos_bound (b + 0 + 1 + 6) 7 ltac:(lia)).
  destruct (3 <? _) eqn:E; [apply Z.ltb_lt in E | apply Z.ltb_ge in E]; lia.
Qed.

Lemma iso_week_bounds d :
  date_valid d = true -> 1 <= iso_week d <= 99.
Proof.
  intros Hd. pose proof (day_of_year_bounds d Hd) as Hdoy.
  unfold iso_week, ymd2ord.
  pose proof (isoweek1monday_bounds (year d)) as H0.
  pose proof (isoweek1monday_bounds (year d - 1)) as Hp.
  pose proof (days_before_year_step (year d - 1)) as Hs.
  replace (year d - 1 + 1) with (year d) in Hs by lia.
  set (doy := days_before_month (year d) (month d) + day d) in *.
  replace (days_before_year (year d) + days_before_month (year d) (month d) + day d)
    with (days_before_year (year d) + doy) by (unfold doy; lia).
  generalize dependent (isoweek1monday (year d)). intros w0 H0.
  generalize dependent (isoweek1monday (year d - 1)). intros wp Hp.
  generalize (isoweek1monday (year d + 1)). intros wn.
  generalize dependent (days_before_year (year d)). intros b0.
  generalize dependent (days_before_year (year d - 1)). intros bp.
  clearbody doy. intros.
  destruct (_ <? 0) eqn:E1; [apply Z.ltb_lt in E1|apply Z.ltb_ge in E1].
  - assert (b0 + doy - w0 < 0).
    { destruct (Z_lt_le_dec (b0 + doy - w0) 0); [assumption|].
      pose proof (Z.div_pos (b0 + doy - w0) 7 ltac:(lia) ltac:(lia)). lia. }
    pose proof (Z.div_le_upper_bound (b0 + doy - wp) 7 98 ltac:(lia) ltac:(lia)).
    pose proof (Z.div_pos (b0 + doy - wp) 7 ltac:(lia) ltac:(lia)). lia.
  - destruct (_ && _)%bool; [lia|].
    pose proof (Z.div_le_upper_bound (b0 + doy - w0) 7 98 ltac:(lia) ltac:(lia)). lia.
Qed.

(** ** The text of the sort key *)

Lemma digit_char_compare a b :
  0 <= a <= 9 -> 0 <= b <= 9 ->
  Ascii.compare (digit_char a) (digit_char b) = Z.compare a b.
Proof.
  intros Ha Hb.
  assert (a = 0 \/ a = 1 \/ a = 2 \/ a = 3 \/ a = 4 \/ a = 5 \/ a = 6 \/ a = 7
          \/ a = 8 \/ a = 9) as Ea by lia.
  assert (b = 0 \/ b = 1 \/ b = 2 \/ b = 3 \/ b = 4 \/ b = 5 \/ b = 6 \/ b = 7
          \/ b = 8 \/ b = 9) as Eb by lia.
  repeat (destruct Ea as [->|Ea]); try subst a;
    repeat (destruct Eb as [->|Eb]); try subst b; reflexivity.
Qed.

Lemma week_digits w :
  0 <= w <= 99 ->
  exists a b,
    0 <= a <= 9 /\ 0 <= b <= 9 /\ w = 10 * a + b /\
    week_str w = String (digit_char a) (String (digit_char b) EmptyString).
Proof.
  intros Hw. exists (w / 10), (w mod 10).
  split; [Z.div_mod_to_equations; lia|].
  split; [Z.div_mod_to_equations; lia|].
  split; [Z.div_mod_to_equations; lia|].
  apply String.eqb_eq.
  apply (forallb_Z_range
           (fun w => String.eqb (week_str w)
                       (String (digit_char (w / 10))
                          (String (digit_char (w mod 10)) EmptyString))) 0 100);
    [vm_compute; reflexivity | lia].
Qed.

Lemma year_digits y :
  1677 <= y <= 2262 ->
  exists a b c d,
    0 <= a <= 9 /\ 0 <= b <= 9 /\ 0 <= c <= 9 /\ 0 <= d <= 9 /\
    y = 1000 * a + 100 * b + 10 * c + d /\
    str_int y = String (digit_char a) (String (digit_char b)
                  (String (digit_char c) (String (digit_char d) EmptyString))).
Proof.
  intros Hy. exists (y / 1000), (y / 100 mod 10), (y / 10 mod 10), (y mod 10).
  split; [Z.div_mod_to_equations; lia|].
  split; [Z.div_mod_to_equations; lia|].
  split; [Z.div_mod_to_equations; lia|].
  split; [Z.div_mod_to_equations; lia|].
  split; [Z.div_mod_to_equations; lia|].
  apply String.eqb_eq.
  apply (forallb_Z_range
           (fun y => String.eqb (str_int y)
                       (String (digit_char (y / 1000))
                          (String (digit_char (y / 100 mod 10))
                             (String (digit_char (y / 10 mod 10))
                                (String (digit_char (y mod 10)) EmptyString)))))
           1677 586);
    [vm_compute; reflexivity | lia].
Qed.

Lemma key_ok_bounds f k :
  key_ok f k ->
  1677 <= AÑO k <= 2262 /\ 0 <= SEMANA k <= 99 /\
  SEMANA_STR k = (year_str f (AÑO k) ++ "-S" ++ week_str (SEMANA k))%string.
Proof.
  intros (t & Ht & E). simpl in E. injection E as <-. simpl.
  unfold timestamp_in_range in Ht.
  rewrite !andb_true_iff, !Z.leb_le in Ht. destruct Ht as [[Hv Hlo] Hhi].
  pose proof (iso_week_bounds _ Hv). repeat split; lia.
Qed.

Lemma key_ok_eq f k1 k2 :
  key_ok f k1 -> key_ok f k2 ->
  AÑO k1 = AÑO k2 -> SEMANA k1 = SEMANA k2 -> k1 = k2.
Proof.
  intros H1 H2 Ey Ew.
  destruct (key_ok_bounds _ _ H1) as (_ & _ & E1).
  destruct (key_ok_bounds _ _ H2) as (_ & _ & E2).
  destruct k1, k2. simpl in *. congruence.
Qed.

(** The text order of [SEMANA_NUM] is the order of [year * 100 + week]. *)
Lemma semana_num_leb f k1 k2 :
  key_ok f k1 -> key_ok f k2 ->
  String.leb (semana_num f k1) (semana_num f k2) = true ->
  sort_key k1 <= sort_key k2.
Proof.
  intros H1 H2.
  destruct (key_ok_bounds _ _ H1) as (Hy1 & Hw1 & _).
  destruct (key_ok_bounds _ _ H2) as (Hy2 & Hw2 & _).
  unfold semana_num, sort_key, year_str.
  destruct (year_digits _ Hy1) as (a1 & b1 & c1 & d1 & ? & ? & ? & ? & -> & ->).
  destruct (year_digits _ Hy2) as (a2 & b2 & c2 & d2 & ? & ? & ? & ? & -> & ->).
  destruct (week_digits _ Hw1) as (u1 & v1 & ? & ? & -> & ->).
  destruct (week_digits _ Hw2) as (u2 & v2 & ? & ? & -> & ->).
  unfold String.leb.
  destruct f; cbv [String.append]; cbn [String.compare];
    rewrite !digit_char_compare by assumption;
    try change (Ascii.compare "." ".") with Eq;
    try change (Ascii.compare "0" "0") with Eq;
    cbn iota;
    destruct (Z.compare_spec a1 a2); try discriminate; try lia;
    destruct (Z.compare_spec b1 b2); try discriminate; try lia;
    destruct (Z.compare_spec c1 c2); try discriminate; try lia;
    destruct (Z.compare_spec d1 d2); try discriminate; try lia;
    destruct (Z.compare_spec u1 u2); try discriminate; try lia;
    destruct (Z.compare_spec v1 v2); try discriminate; lia.
Qed.

(** ** Groups *)

Lemma wk_eqb_eq a b : wk_eqb a b = true <-> a = b.
Proof.
  unfold wk_eqb. rewrite !andb_true_iff, String.eqb_eq, !Z.eqb_eq.
  destruct a, b; simpl. split; [intros [[-> ->] ->]; reflexivity|].
  intros E. injection E as -> -> ->. auto.
Qed.

Lemma group_push_keys {A : Type} (k : week_key) (x : A) gs :
  (In k (map fst gs) /\ map fst (group_push k x gs) = map fst gs)
  \/ (~ In k (map fst gs) /\ map fst (group_push k x gs) = (map fst gs ++ [k])%list).
Proof.
  induction gs as [|[k' xs] gs IH]; simpl.
  - right. split; [tauto | reflexivity].
  - destruct (wk_eqb k k') eqn:E.
    + apply wk_eqb_eq in E as ->. left. simpl. split; [now left | reflexivity].
    + assert (k' <> k) as Hne.
      { intros ->. assert (wk_eqb k k = true) by now apply wk_eqb_eq. congruence. }
      destruct IH as [[Hin Heq]|[Hnin Heq]]; simpl; rewrite Heq.
      * left. split; [now right | reflexivity].
      * right. split; [tauto | reflexivity].
Qed.

Lemma collect_groups_keys {A : Type} (keyed : list (option week_key * A)) :
  NoDup (map fst (collect_groups keyed))
  /\ forall k, In k (map fst (collect_groups keyed)) -> In (Some k) (map fst keyed).
Proof.
  unfold collect_groups.
  enough (forall gs,
             NoDup (map fst gs) ->
             let out := fold_left (fun gs kx =>
                                     match fst kx with
                                     | Some k => group_push k (snd kx) gs
                                     | None => gs
                                     end) keyed gs in
             NoDup (map fst out)
             /\ forall k, In k (map fst out) ->
                          In k (map fst gs) \/ In (Some k) (map fst keyed)) as Hgen.
  { destruct (Hgen [] (NoDup_nil_2)) as [Hnd Hin]. split; [exact Hnd|].
    intros k Hk. destruct (Hin k Hk) as [[]|]; assumption. }
  induction keyed as [|[[k|] x] keyed IH]; intros gs Hnd; simpl.
  - split; [exact Hnd | auto].
  - destruct (group_push_keys k x gs) as [[Hin Heq]|[Hnin Heq]].
    + destruct (IH (group_push k x gs)) as [Hnd' Hin']; [now rewrite Heq|].
      split; [exact Hnd'|]. intros k' Hk'.
      destruct (Hin' k' Hk') as [H1|H1]; [left; now rewrite <- Heq | right; now right].
    + destruct (IH (group_push k x gs)) as [Hnd' Hin'].
      { rewrite Heq. apply NoDup_app. repeat split; try assumption.
        - intros y Hy Hy'. apply list_elem_of_In in Hy, Hy'.
          destruct Hy' as [<-|[]]. contradiction.
        - apply NoDup_singleton. }
      split; [exact Hnd'|]. intros k' Hk'.
      destruct (Hin' k' Hk') as [H1|H1]; [|right; now right].
      rewrite Heq in H1. apply in_app_or in H1 as [H1|[<-|[]]];
        [now left | right; now left].
  - destruct (IH gs Hnd) as [Hnd' Hin']. split; [exact Hnd'|].
    intros k' Hk'. destruct (Hin' k' Hk'); [now left | right; now right].
Qed.

Lemma groupby_week_keys {A : Type} (keyed : list (option week_key * A)) :
  NoDup (map fst (groupby_week keyed))
  /\ forall k, In k (map fst (groupby_week keyed)) -> In (Some k) (map fst keyed).
Proof.
  destruct (collect_groups_keys keyed) as [Hnd Hin].
  pose proof (sort_by_perm (fun a b : week_key * list A => wk_leb (fst a) (fst b))
                (collect_groups keyed)) as Hperm.
  fold (groupby_week keyed) in Hperm.
  apply (Permutation_map fst) in Hperm.
  split.
  - rewrite Hperm. exact Hnd.
  - intros k Hk. apply Hin. exact (Permutation_in _ Hperm Hk).
Qed.

Lemma key_lt_trans a b c : key_lt a b -> key_lt b c -> key_lt a c.
Proof. unfold key_lt. lia. Qed.

Lemma key_lt_sort_key f a b :
  key_ok f a -> key_ok f b -> sort_key a < sort_key b -> key_lt a b.
Proof.
  intros Ha Hb. destruct (key_ok_bounds _ _ Ha) as (_ & ? & _).
  destruct (key_ok_bounds _ _ Hb) as (_ & ? & _).
  unfold sort_key, key_lt. lia.
Qed.

(** Buckets with pairwise different keys, sorted by the text of their
    sort key, are in strictly ascending order of (year, week). *)
Lemma sorted_buckets {A : Type} (key : A -> week_key) (num : A -> string) f (l : list A) :
  Forall (fun a => key_ok f (key a) /\ num a = semana_num f (key a)) l ->
  NoDup (map key l) ->
  strictly_ascending (map key (sort_by (fun a b => String.leb (num a) (num b)) l))
  /\ NoDup (map key (sort_by (fun a b => String.leb (num a) (num b)) l)).
Proof.
  intros Hall Hnd.
  set (leb := fun a b => String.leb (num a) (num b)).
  pose proof (sort_by_perm leb l) as Hperm.
  assert (Sorted (fun a b => leb a b = true) (sort_by leb l)) as Hsorted.
  { apply sort_by_sorted. intros a b. apply String.leb_total. }
  assert (Forall (fun a => key_ok f (key a) /\ num a = semana_num f (key a))
                 (sort_by leb l)) as Hall'.
  { apply List.Forall_forall. intros a Ha. rewrite List.Forall_forall in Hall.
    apply Hall. exact (Permutation_in _ Hperm Ha). }
  assert (NoDup (map key (sort_by leb l))) as Hnd'.
  { rewrite (Permutation_map key Hperm). exact Hnd. }
  split; [|exact Hnd'].
  clear Hperm Hall Hnd. unfold strictly_ascending.
  induction Hsorted as [|a l' Hl' IH Hhd]; simpl; [constructor|].
  inversion Hall' as [|? ? [Hka Hna] Hall'']; subst.
  apply NoDup_cons in Hnd' as [Hnotin Hnd''].
  specialize (IH Hall'' Hnd'').
  constructor; [exact IH|].
  destruct l' as [|b l'']; [constructor|].
  inversion Hhd as [|? ? Hab]; subst.
  inversion Hall'' as [|? ? [Hkb Hnb] _]; subst.
  assert (key_lt (key a) (key b)) as Hlt.
  { apply (key_lt_sort_key f); try assumption.
    unfold leb in Hab. rewrite Hna, Hnb in Hab.
    pose proof (semana_num_leb f _ _ Hka Hkb Hab) as Hle.
    destruct (Z.eq_dec (sort_key (key a)) (sort_key (key b))) as [E|]; [|lia].
    exfalso. apply Hnotin.
    destruct (key_ok_bounds _ _ Hka) as (_ & ? & _).
    destruct (key_ok_bounds _ _ Hkb) as (_ & ? & _).
    apply list_elem_of_In. left.
    symmetry. apply (key_ok_eq f); try assumption; unfold sort_key in E; lia. }
  simpl in IH. inversion IH as [|? ? _ Hrest]; subst.
  constructor; [exact Hlt|].
  eapply Forall_impl; [exact Hrest|]. intros c Hc. exact (key_lt_trans _ _ _ Hlt Hc).
Qed.

(** ** The three weekly views *)

Lemma week_keys_ok df fl keys :
  start_dates_in_range df ->
  week_keys df = Ok (fl, keys) ->
  forall k, In (Some k) keys -> key_ok fl k.
Proof.
  intros Hrange E k Hk. unfold week_keys in E.
  inv_bind E. inv_bind E. injection E as Efl <-. rewrite Efl in Hk. clear Efl.
  apply dt_accessor_Ok in Hv0 as [-> _].
  unfold getitem in Hv. destruct (has_col df "FECHA_DE_INICIO"); [|discriminate].
  injection Hv as <-.
  rewrite !map_map in Hk. apply in_map_iff in Hk as (r & Hr & Hin).
  destruct (at_col "FECHA_DE_INICIO" r) as [ | | |t| ] eqn:Ecell; try discriminate.
  exists t. split; [exact (Hrange r t Hin Ecell) | exact Hr].
Qed.

Lemma keyed_keys {A : Type} (keys : list (option week_key)) (l : list A) keyed k :
  incl keyed (combine keys l) ->
  In (Some k) (map fst keyed) -> In (Some k) keys.
Proof.
  intros Hincl Hk. apply in_map_iff in Hk as ([o x] & Eo & Hin).
  simpl in Eo. subst o. apply Hincl in Hin. exact (in_combine_l _ _ _ _ Hin).
Qed.

Lemma buckets_of_groups {A G : Type} (key : A -> week_key) (num : A -> string) fl
    (groups : list (week_key * G)) (data : list A) :
  NoDup (map fst groups) ->
  (forall k, In k (map fst groups) -> key_ok fl k) ->
  Forall2 (fun g y => key y = fst g /\ num y = semana_num fl (fst g)) groups data ->
  strictly_ascending (map key (sort_by (fun a b => String.leb (num a) (num b)) data))
  /\ NoDup (map key (sort_by (fun a b => String.leb (num a) (num b)) data)).
Proof.
  intros Hnd Hok Hdata.
  assert (map key data = map fst groups
          /\ Forall (fun a => key_ok fl (key a) /\ num a = semana_num fl (key a)) data)
    as [Ekeys Hall].
  { revert Hok. clear Hnd.
    induction Hdata as [|g y groups data [Ek En] _ IH]; intros Hok;
      [split; [reflexivity | constructor]|].
    destruct IH as [IH1 IH2]; [intros k Hk; apply Hok; now right|].
    split; [simpl; congruence|].
    constructor; [|exact IH2].
    rewrite Ek. split; [apply Hok; now left | congruence]. }
  apply (sorted_buckets key num fl); [exact Hall | now rewrite Ekeys].
Qed.

(** The keys of the groups of a part of the frame. *)
Lemma groups_ok df fl keys (keyed : list (option week_key * gmap string cell)) :
  start_dates_in_range df ->
  week_keys df = Ok (fl, keys) ->
  incl keyed (combine keys (rows df)) ->
  NoDup (map fst (groupby_week keyed))
  /\ forall k, In k (map fst (groupby_week keyed)) -> key_ok fl k.
Proof.
  intros Hrange Ekeys Hincl.
  destruct (groupby_week_keys keyed) as [Hnd Hin].
  split; [exact Hnd|]. intros k Hk.
  apply (week_keys_ok df fl keys Hrange Ekeys).
  exact (keyed_keys _ _ _ _ Hincl (Hin k Hk)).
Qed.

Lemma get_weekly_data_ascending df out :
  start_dates_in_range df ->
  get_weekly_data df = Ok out ->
  strictly_ascending (map General.key out) /\ NoDup (map General.key out).
Proof.
  intros Hrange E. unfold get_weekly_data in E.
  destruct (df_empty df || negb (has_col df "FECHA_DE_INICIO"))%bool.
  { injection E as <-. split; constructor. }
  inv_bind E. destruct v as [fl keys].
  inv_bind E. inv_bind E. inv_bind E. inv_bind E. inv_bind E. inv_bind E.
  injection E as <-.
  destruct (groups_ok df fl keys (select v (combine keys (rows df))) Hrange Hv)
    as [Hnd Hok]; [apply select_incl|].
  apply (buckets_of_groups General.key General.SEMANA_NUM fl _ _ Hnd Hok).
  apply traverse_Ok in Hv5.
  eapply Forall2_impl; [exact Hv5|].
  intros g y Ey. simpl in Ey.
  inv_bind Ey. inv_bind Ey. inv_bind Ey. inv_bind Ey. injection Ey as <-.
  split; reflexivity.
Qed.

Lemma get_weekly_extra_hours_ascending df out :
  start_dates_in_range df ->
  get_weekly_extra_hours df = Ok out ->
  strictly_ascending (map Overtime.key out) /\ NoDup (map Overtime.key out).
Proof.
  intros Hrange E. unfold get_weekly_extra_hours in E.
  destruct (df_empty df || negb (has_col df "FECHA_DE_INICIO"))%bool.
  { injection E as <-. split; constructor. }
  inv_bind E. destruct v as [fl keys].
  inv_bind E. inv_bind E.
  injection E as <-.
  destruct (groups_ok df fl keys (combine keys (rows df)) Hrange Hv)
    as [Hnd Hok]; [apply incl_refl|].
  apply (buckets_of_groups Overtime.key Overtime.SEMANA_NUM fl _ _ Hnd Hok).
  apply traverse_Ok in Hv1.
  eapply Forall2_impl; [exact Hv1|].
  intros g y Ey. simpl in Ey.
  inv_bind Ey. injection Ey as <-.
  split; reflexivity.
Qed.

Lemma get_weekly_emergency_data_ascending df out :
  start_dates_in_range df ->
  get_weekly_emergency_data df = Ok out ->
  strictly_ascending (map Emergency.key out) /\ NoDup (map Emergency.key out).
Proof.
  intros Hrange E. unfold get_weekly_emergency_data in E.
  destruct (df_empty df || negb (has_col df "FECHA_DE_INICIO"))%bool.
  { injection E as <-. split; constructor. }
  inv_bind E. destruct v as [fl keys].
  inv_bind E.
  destruct (select v (combine keys (rows df))) as [|kr df_emergency] eqn:Eem.
  { injection E as <-. split; constructor. }
  inv_bind E. inv_bind E. inv_bind E. inv_bind E. inv_bind E. inv_bind E.
  injection E as <-.
  destruct (groups_ok df fl keys (kr :: df_emergency) Hrange Hv) as [Hnd Hok].
  { rewrite <- Eem. apply select_incl. }
  apply (buckets_of_groups Emergency.key Emergency.SEMANA_NUM fl _ _ Hnd Hok).
  apply traverse_Ok in Hv5.
  apply Forall2_fmap_r.
  eapply Forall2_impl; [exact Hv5|].
  intros g [k [[[tr tfc] tfs] td]] Ey. simpl in Ey.
  inv_bind Ey. inv_bind Ey. inv_bind Ey. injection Ey as <- <- <- <- <-.
  split; reflexivity.
Qed.

Local Close Scope Z_scope.

(** ** Weekly availability without available time *)

Lemma fdiv_by_zero a b : b == 0 -> is_finite (fscale (fdiv a b) 100) = false.
Proof.
  intros Hb. unfold fdiv.
  apply Qeq_bool_iff in Hb. rewrite Hb.
  destruct (Qeq_bool a 0); [reflexivity|].
  destruct (Qltb 0 a); reflexivity.
Qed.

Lemma fdiv_finite a b : ~ b == 0 -> fscale (fdiv a b) 100 = Fin (a / b * 100).
Proof.
  intros Hb. unfold fdiv.
  destruct (Qeq_bool b 0) eqn:E; [|reflexivity].
  apply Qeq_bool_iff in E. contradiction.
Qed.

Lemma get_weekly_data_bucket df out b :
  get_weekly_data df = Ok out -> In b out ->
  General.DISPO_SEMANAL b
  = fscale (fdiv (General.TDISPONIBLE b - General.TFS_MIN b) (General.TDISPONIBLE b)) 100.
Proof.
  intros E Hb. unfold get_weekly_data in E.
  destruct (df_empty df || negb (has_col df "FECHA_DE_INICIO"))%bool.
  { injection E as <-. destruct Hb. }
  inv_bind E. destruct v as [fl keys].
  inv_bind E. inv_bind E. inv_bind E. inv_bind E. inv_bind E. inv_bind E.
  injection E as <-.
  apply (Permutation_in _ (sort_by_perm _ _)) in Hb.
  apply traverse_Ok in Hv5.
  destruct (Forall2_In_r _ _ _ _ Hv5 Hb) as (g & _ & Ey). simpl in Ey.
  inv_bind Ey. inv_bind Ey. inv_bind Ey. inv_bind Ey. injection Ey as <-.
  reflexivity.
Qed.

(** C2 (what the code does). In the general view the weekly availability
    of a bucket is the float quotient (available_time - TFS) /
    available_time * 100 with no fallback: it is that number when the
    available time of the bucket is not 0, and it is infinite or NaN, not
    0, when the available time of the bucket is 0. *)
Theorem weekly_availability_has_no_zero_fallback df out b :
  get_weekly_data df = Ok out -> In b out ->
  (~ General.TDISPONIBLE b == 0 ->
   General.DISPO_SEMANAL b
   = Fin ((General.TDISPONIBLE b - General.TFS_MIN b) / General.TDISPONIBLE b * 100))
  /\ (General.TDISPONIBLE b == 0 -> is_finite (General.DISPO_SEMANAL b) = false).
Proof.
  intros E Hb. rewrite (get_weekly_data_bucket _ _ _ E Hb).
  split; intros Htd; [now apply fdiv_finite | now apply fdiv_by_zero].
Qed.

Section WeeklyExamples.
Import Examples.

(** C2, on one stoppage of 30 minutes on a day without available time:
    the weekly availability of its bucket is minus infinity. *)
Lemma weekly_availability_has_no_zero_fallback_witness :
  let out := unwrap [] (get_weekly_data zero_available) in
  get_weekly_data zero_available = Ok out /\
  map (fun b => (SEMANA_STR (General.key b), General.TDISPONIBLE b, General.TFS_MIN b,
                 General.DISPO_SEMANAL b)) out
  = [("2024-S10", 0, 30, NInf)] /\
  Forall (fun b => is_finite (General.DISPO_SEMANAL b) = false) out.
Proof.
  intros out.
  assert (get_weekly_data zero_available = Ok out) as E
      by (apply unwrap_Ok; vm_compute; reflexivity).
  split; [exact E|]. split; [vm_compute; reflexivity|].
  apply List.Forall_forall. intros b Hb.
  apply (weekly_availability_has_no_zero_fallback zero_available out b E Hb).
  assert (map General.TDISPONIBLE out = [0]) as Htd by (vm_compute; reflexivity).
  destruct out as [|b0 [|b1 out']]; try discriminate.
  destruct Hb as [<-|[]]. injection Htd as ->. reflexivity.
Defined.

End WeeklyExamples.

(** ** The normalizer *)

Section Normalizer.
Context {host : Host}.

Lemma calcular_duracion_minutos_nonneg fecha_inicio hora_inicio fecha_fin hora_fin :
  0 <= calcular_duracion_minutos fecha_inicio hora_inicio fecha_fin hora_fin.
Proof.
  unfold calcular_duracion_minutos.
  destruct (combine_date_time fecha_inicio hora_inicio); [|apply Qle_refl].
  destruct (combine_date_time fecha_fin hora_fin); [|apply Qle_refl].
  apply py_max_ge_0.
Qed.

Lemma calcular_duracion_minutos_parse_failure fecha_inicio hora_inicio fecha_fin hora_fin :
  combine_date_time fecha_inicio hora_inicio = None
  \/ combine_date_time fecha_fin hora_fin = None ->
  calcular_duracion_minutos fecha_inicio hora_inicio fecha_fin hora_fin = 0.
Proof.
  unfold calcular_duracion_minutos. intros [-> | ->]; [reflexivity|].
  now destruct (combine_date_time fecha_inicio hora_inicio).
Qed.

Lemma calcular_duracion_minutos_parsed fecha_inicio hora_inicio fecha_fin hora_fin
    datetime_inicio datetime_fin :
  combine_date_time fecha_inicio hora_inicio = Some datetime_inicio ->
  combine_date_time fecha_fin hora_fin = Some datetime_fin ->
  calcular_duracion_minutos fecha_inicio hora_inicio fecha_fin hora_fin
  = py_max (total_seconds datetime_fin datetime_inicio / 60) 0.
Proof. unfold calcular_duracion_minutos. now intros -> ->. Qed.

Lemma at_col_insert_eq c v (r : gmap string cell) : at_col c (<[c := v]> r) = v.
Proof. unfold at_col. now rewrite lookup_insert_eq. Qed.

Lemma at_col_insert_ne c c' v (r : gmap string cell) :
  c <> c' -> at_col c' (<[c := v]> r) = at_col c' r.
Proof. intros Hne. unfold at_col. now rewrite lookup_insert_ne. Qed.

Lemma has_col_assign d c values c' :
  has_col (assign d c values) c' = (has_col d c' || String.eqb c' c)%bool.
Proof.
  unfold assign, has_col at 1. simpl.
  destruct (has_col d c) eqn:E.
  - fold (has_col d c'). destruct (String.eqb c' c) eqn:E'.
    + apply String.eqb_eq in E' as ->. rewrite E. reflexivity.
    + now rewrite orb_false_r.
  - rewrite existsb_app. simpl. fold (has_col d c'). now rewrite orb_false_r.
Qed.

Lemma Forall2_zip_with_r {A B C : Type} (f : A -> B -> C) (P : A -> B -> Prop) l k :
  Forall2 P l k ->
  Forall2 (fun x z => exists y, P x y /\ z = f x y) l (zip_with f l k).
Proof. induction 1; simpl; constructor; eauto. Qed.

Lemma Forall2_map_self {A B : Type} (g : A -> B) l :
  Forall2 (fun x z => z = g x) l (map g l).
Proof. induction l; simpl; constructor; auto. Qed.

Lemma zip_with_map_self {A B C : Type} (f : A -> B -> C) (g : A -> B) l :
  zip_with f l (map g l) = map (fun x => f x (g x)) l.
Proof. induction l; simpl; [reflexivity | now f_equal]. Qed.

Lemma Forall2_compose {A B C : Type} (P : A -> B -> Prop) (Q : B -> C -> Prop) l k m :
  Forall2 P l k -> Forall2 Q k m ->
  Forall2 (fun x z => exists y, P x y /\ Q y z) l m.
Proof.
  intros HP. revert m. induction HP as [|x y l k Hxy _ IH]; intros m HQ.
  - inversion HQ. constructor.
  - inversion HQ as [|? z ? m' Hyz HQ']; subst. constructor; eauto.
Qed.

(** [pd.to_datetime] on a column, as a relation between the rows before
    and after the assignment. *)
Lemma to_datetime_column d c col fechas :
  getitem d c = Ok col ->
  traverse to_datetime_cell col = Ok fechas ->
  Forall2 (fun x x' => exists f, to_datetime_cell (at_col c x) = Ok f /\ x' = <[c := f]> x)
          (rows d) (rows (assign d c fechas)).
Proof.
  intros Hcol Htr. unfold getitem in Hcol.
  destruct (has_col d c); [|discriminate]. injection Hcol as <-.
  apply traverse_Ok in Htr. apply Forall2_fmap_l in Htr.
  unfold assign. simpl.
  exact (Forall2_zip_with_r (fun r v => <[c := v]> r) _ _ _ Htr).
Qed.

(** The columns that the loop over [numeric_columns] coerces after
    [TR_MIN] leave [TR_MIN] alone. *)
Lemma coerce_other_columns cols d :
  ~ In "TR_MIN" cols ->
  Forall2 (fun x y => at_col "TR_MIN" y = at_col "TR_MIN" x)
          (rows d) (rows (fold_left coerce_column cols d)).
Proof.
  revert d. induction cols as [|c cols IH]; intros d Hnin; simpl.
  - induction (rows d); constructor; auto.
  - assert (Forall2 (fun x y => at_col "TR_MIN" y = at_col "TR_MIN" x)
                    (rows d) (rows (coerce_column d c))) as Hstep.
    { unfold coerce_column. destruct (has_col d c).
      - unfold assign. simpl. rewrite zip_with_map_self.
        eapply Forall2_impl; [apply Forall2_map_self|].
        intros x y ->. apply at_col_insert_ne. intros ->. apply Hnin. now left.
      - induction (rows d); constructor; auto. }
    eapply Forall2_impl.
    + exact (Forall2_compose _ _ _ _ _ Hstep (IH (coerce_column d c)
                                                 (fun H => Hnin (or_intror H)))).
    + intros x z (y & Hxy & Hyz). cbv beta in Hxy, Hyz |- *. congruence.
Qed.

(** The real repair time of every row that [clean_and_prepare_data]
    builds, before the status filter, from the row with canonical names. *)
Lemma prepared_repair_time df out :
  clean_and_prepare_data df = Ok out ->
  exists prepared,
    incl (rows out) prepared /\
    Forall2
      (fun x x' =>
         exists fecha_inicio fecha_fin,
           to_datetime_cell (at_col "FECHA_DE_INICIO" x) = Ok fecha_inicio /\
           to_datetime_cell (at_col "FECHA_DE_FIN" x) = Ok fecha_fin /\
           let calculado :=
             Num (calcular_duracion_minutos fecha_inicio (at_col "HORA_INICIO" x)
                                            fecha_fin (at_col "HORA_FINAL" x)) in
           at_col "TR_MIN" x'
           = coerce_numeric
               (if has_col (unify_column_names df) "TR_MIN"
                then (if isna (at_col "TR_MIN" x) || cell_eq_0 (at_col "TR_MIN" x)
                      then calculado else at_col "TR_MIN" x)
                else calculado))
      (rows (unify_column_names df)) prepared.
Proof.
  unfold clean_and_prepare_data. cbv zeta.
  set (d1 := unify_column_names df).
  intros E. inv_bind E. inv_bind E.
  set (d2 := assign d1 "FECHA_DE_INICIO" v0) in *.
  inv_bind E. inv_bind E.
  set (d3 := assign d2 "FECHA_DE_FIN" v2) in *.
  inv_bind E.
  set (d4 := assign d3 "TR_MIN_CALCULADO" v3) in *.
  pose proof (to_datetime_column d1 _ _ _ Hv Hv0) as H12. fold d2 in H12.
  pose proof (to_datetime_column d2 _ _ _ Hv1 Hv2) as H23. fold d3 in H23.
  assert (Forall2 (fun x x' =>
                     x' = <["TR_MIN_CALCULADO" :=
                              Num (calcular_duracion_minutos
                                     (at_col "FECHA_DE_INICIO" x) (at_col "HORA_INICIO" x)
                                     (at_col "FECHA_DE_FIN" x) (at_col "HORA_FINAL" x))]> x)
                  (rows d3) (rows d4)) as H34.
  { apply traverse_Ok in Hv3. unfold d4, assign. simpl.
    eapply Forall2_impl;
      [exact (Forall2_zip_with_r (fun r v => <["TR_MIN_CALCULADO" := v]> r) _ _ _ Hv3)|].
    intros x x' (c & Hc & ->). unfold row_get in Hc.
    inv_bind Hc. inv_bind Hc. inv_bind Hc. inv_bind Hc. injection Hc as <-.
    destruct (has_col d3 "FECHA_DE_INICIO"); [|discriminate]. injection Hv4 as <-.
    destruct (has_col d3 "HORA_INICIO"); [|discriminate]. injection Hv5 as <-.
    destruct (has_col d3 "FECHA_DE_FIN"); [|discriminate]. injection Hv6 as <-.
    destruct (has_col d3 "HORA_FINAL"); [|discriminate]. injection Hv7 as <-.
    reflexivity. }
  assert (has_col d4 "TR_MIN" = has_col d1 "TR_MIN") as Hcol.
  { unfold d4, d3, d2. rewrite !has_col_assign. simpl. now rewrite !orb_false_r. }
  set (fallback := fun x : gmap string cell =>
                     if has_col d1 "TR_MIN"
                     then (if isna (at_col "TR_MIN" x) || cell_eq_0 (at_col "TR_MIN" x)
                           then at_col "TR_MIN_CALCULADO" x else at_col "TR_MIN" x)
                     else at_col "TR_MIN_CALCULADO" x).
  set (d5 := if has_col d4 "TR_MIN" then _ else _) in E.
  assert (rows d5 = map (fun x => <["TR_MIN" := fallback x]> x) (rows d4)
          /\ has_col d5 "TR_MIN" = true) as [Hrows5 Hcol5].
  { unfold d5, fallback. rewrite Hcol. destruct (has_col d1 "TR_MIN").
    - split; [unfold assign; simpl; apply zip_with_map_self|].
      rewrite has_col_assign. apply orb_true_r.
    - split; [unfold assign; simpl; apply zip_with_map_self|].
      rewrite has_col_assign. apply orb_true_r. }
  set (d6 := fold_left coerce_column numeric_columns d5) in E.
  assert (Forall2 (fun x y => at_col "TR_MIN" y = coerce_numeric (at_col "TR_MIN" x))
                  (rows d5) (rows d6)) as H56.
  { unfold d6, numeric_columns. cbn [fold_left].
    assert (Forall2 (fun x y => at_col "TR_MIN" y = coerce_numeric (at_col "TR_MIN" x))
                    (rows d5) (rows (coerce_column d5 "TR_MIN"))) as Hstep.
    { unfold coerce_column. rewrite Hcol5. unfold assign. simpl.
      rewrite zip_with_map_self.
      eapply Forall2_impl; [apply Forall2_map_self|].
      intros x y ->. apply at_col_insert_eq. }
    eapply Forall2_impl.
    - refine (Forall2_compose _ _ _ _ _ Hstep
                (coerce_other_columns
                   ["TFC_MIN"; "TFS_MIN"; "TDISPONIBLE"; "TIEMPO_PROG_MIN"; "H_EXTRA_MIN"]
                   _ _)).
      simpl. intros Hin. repeat (destruct Hin as [Hin|Hin]; [discriminate Hin|]).
      exact Hin.
    - intros x z (y & Hxy & Hyz). cbv beta in Hxy, Hyz |- *. congruence. }
  clearbody d6.
  exists (rows d6). split.
  { destruct (has_col d6 "STATUS"); injection E as <-;
      [apply select_incl | apply incl_refl]. }
  assert (Forall2 (fun x y => y = <["TR_MIN" := fallback x]> x) (rows d4) (rows d5)) as H45.
  { rewrite Hrows5. apply Forall2_map_self. }
  pose proof (Forall2_compose _ _ _ _ _ H12
                (Forall2_compose _ _ _ _ _ H23
                   (Forall2_compose _ _ _ _ _ H34
                      (Forall2_compose _ _ _ _ _ H45 H56)))) as Hchain.
  eapply Forall2_impl; [exact Hchain|].
  clear. intros x x6 (x2 & (fi & Hfi & ->) & x3 & (ff & Hff & ->) & x4 & -> & x5 & -> & H6).
  cbv beta in *.
  rewrite at_col_insert_ne in Hff by discriminate.
  exists fi, ff. split; [exact Hfi|]. split; [exact Hff|].
  rewrite H6. unfold fallback.
  repeat (rewrite at_col_insert_eq || rewrite at_col_insert_ne by discriminate).
  reflexivity.
Qed.

(** *** Numeric columns after the coercion *)








(** C5 (amended). For every record in the Normalizer's output,
    real_repair_time_min equals the source value when that value is a
    non-zero number; it equals the derived duration when the source column
    is absent or the value is missing or a numeric zero; and when the
    source value is present but not a number (text, say) it is the number
    that the numeric coercion reads in it, 0 if there is none.  The derived
    duration is the difference, in minutes, of end_date + end_time and
    start_date + start_time; it is never negative and is 0 on any parse
    failure. *)
Theorem repair_time_after_normalization df out :
  clean_and_prepare_data df = Ok out ->
  Forall
    (fun x' =>
       exists x fecha_inicio fecha_fin,
         In x (rows (unify_column_names df)) /\
         to_datetime_cell (at_col "FECHA_DE_INICIO" x) = Ok fecha_inicio /\
         to_datetime_cell (at_col "FECHA_DE_FIN" x) = Ok fecha_fin /\
         let source := at_col "TR_MIN" x in
         let present := has_col (unify_column_names df) "TR_MIN" in
         let derived :=
           calcular_duracion_minutos fecha_inicio (at_col "HORA_INICIO" x)
                                     fecha_fin (at_col "HORA_FINAL" x) in
         (present = true -> forall q, source = Num q -> ~ q == 0 ->
                            at_col "TR_MIN" x' = Num q) /\
         (present = false \/ isna source = true \/ cell_eq_0 source = true ->
          at_col "TR_MIN" x' = Num derived) /\
         (present = true -> is_number source = false -> isna source = false ->
          at_col "TR_MIN" x' = Num (default 0 (to_numeric source))) /\
         0 <= derived /\
         (combine_date_time fecha_inicio (at_col "HORA_INICIO" x) = None
          \/ combine_date_time fecha_fin (at_col "HORA_FINAL" x) = None ->
          derived = 0) /\
         (forall datetime_inicio datetime_fin,
             combine_date_time fecha_inicio (at_col "HORA_INICIO" x) = Some datetime_inicio ->
             combine_date_time fecha_fin (at_col "HORA_FINAL" x) = Some datetime_fin ->
             derived = py_max (total_seconds datetime_fin datetime_inicio / 60) 0))
    (rows out).
Proof.
  intros E. destruct (prepared_repair_time df out E) as (prepared & Hincl & Hall).
  apply List.Forall_forall. intros x' Hx'. apply Hincl in Hx'.
  destruct (Forall2_In_r _ _ _ _ Hall Hx') as (x & Hx & fi & ff & Hfi & Hff & Htr).
  exists x, fi, ff. split; [exact Hx|]. split; [exact Hfi|]. split; [exact Hff|].
  cbv zeta in *. rewrite Htr. clear Htr.
  split; [|split; [|split; [|split; [|split]]]].
  - intros -> q -> Hq. simpl.
    destruct (Qeq_bool q 0) eqn:Eq0; [|reflexivity].
    apply Qeq_bool_iff in Eq0. contradiction.
  - intros [-> | [Hna | Hz]]; [reflexivity| |].
    + rewrite Hna. simpl. now destruct (has_col _ _).
    + rewrite Hz, orb_true_r. now destruct (has_col _ _).
  - intros -> Hnum Hna. rewrite Hna.
    destruct (at_col "TR_MIN" x); try discriminate; reflexivity.
  - apply calcular_duracion_minutos_nonneg.
  - apply calcular_duracion_minutos_parse_failure.
  - apply calcular_duracion_minutos_parsed.
Qed.

End Normalizer.

Section NormalizerExamples.
Import Examples.
#[local] Existing Instance Sample.host.

(** C5 (counterexample). A sheet whose first record has "30 min" typed in
    the repair-time column and runs from 10:00 to 10:45: the source value
    is present and is not zero, the derived duration is 45 minutes, and the
    record leaves the Normalizer with a repair time of 0. *)
Lemma repair_time_typed_with_unit_is_zeroed :
  let out := unwrap raw_sheet (clean_and_prepare_data raw_sheet) in
  clean_and_prepare_data raw_sheet = Ok out /\
  map (at_col "TR (min)") (rows raw_sheet) = [Str "30 min"; Num 25; NaN; Num 0] /\
  map (at_col "TR_MIN_CALCULADO") (rows out)
  = [Num (2700 # 60); Num (1200 # 60); Num (1800 # 60); Num 0] /\
  map (at_col "TR_MIN") (rows out) = [Num 0; Num 25; Num (1800 # 60); Num 0] /\
  Num 0 <> Str "30 min" /\ ~ 0 == 2700 # 60.
Proof.
  intros out.
  split; [apply unwrap_Ok; vm_compute; reflexivity|].
  split; [vm_compute; reflexivity|].
  split; [vm_compute; reflexivity|].
  split; [vm_compute; reflexivity|].
  split; discriminate.
Qed.

(** C5 (amended), on the same sheet. *)
Lemma repair_time_after_normalization_witness :
  let out := unwrap raw_sheet (clean_and_prepare_data raw_sheet) in
  length (rows out) = 4%nat /\
  Forall
    (fun x' =>
       exists x fecha_inicio fecha_fin,
         In x (rows (unify_column_names raw_sheet)) /\
         to_datetime_cell (at_col "FECHA_DE_INICIO" x) = Ok fecha_inicio /\
         to_datetime_cell (at_col "FECHA_DE_FIN" x) = Ok fecha_fin /\
         let source := at_col "TR_MIN" x in
         let derived :=
           calcular_duracion_minutos fecha_inicio (at_col "HORA_INICIO" x)
                                     fecha_fin (at_col "HORA_FINAL" x) in
         (forall q, source = Num q -> ~ q == 0 -> at_col "TR_MIN" x' = Num q) /\
         (isna source = true \/ cell_eq_0 source = true ->
          at_col "TR_MIN" x' = Num derived) /\
         0 <= derived)
    (rows out).
Proof.
  intros out. split; [vm_compute; reflexivity|].
  assert (clean_and_prepare_data raw_sheet = Ok out) as E
      by (apply unwrap_Ok; vm_compute; reflexivity).
  pose proof (repair_time_after_normalization raw_sheet out E) as Hall.
  eapply Forall_impl; [exact Hall|].
  intros x' (x & fi & ff & Hx & Hfi & Hff & Hnum & Hder & _ & Hnn & _).
  exists x, fi, ff. repeat split; try assumption.
  - apply Hnum. reflexivity.
  - intros H. apply Hder. now right.
Defined.

End NormalizerExamples.

(** * Further properties of the two calculators *)

Section MetricsFurther.
Context {host : Host}.


Lemma of_nat_nonneg n : 0 <= of_nat n.
Proof.
  unfold of_nat. change 0 with (inject_Z 0). rewrite <- Zle_Qle. lia.
Qed.


Lemma of_nat_le a b : (a <= b)%nat -> of_nat a <= of_nat b.
Proof. intros Hab. unfold of_nat. rewrite <- Zle_Qle. lia. Qed.








(** ** The distribution by maintenance type *)








Lemma getitem_inv df c col :
  getitem df c = Ok col -> has_col df c = true /\ col = map (at_col c) (rows df).
Proof.
  unfold getitem. destruct (has_col df c); [|discriminate].
  intros E. injection E as <-. now split.
Qed.


End MetricsFurther.

(** * Further properties of the filter engine *)

Section FiltersFurther.
Context {host : Host}.
















End FiltersFurther.

(** * Further properties of the weekly views *)

(** ** Sums over buckets *)




Lemma sum_of_map {A B : Type} (h : A -> B) (f : B -> Q) (l : list A) :
  sum_of f (map h l) = sum_of (fun x => f (h x)) l.
Proof. induction l as [|x l IH]; simpl; [reflexivity | now rewrite IH]. Qed.


Lemma series_sum_sum_of l s : series_sum l = Ok s -> s = sum_of number_of l.
Proof.
  revert s. induction l as [|c l IH]; intros s E; simpl in E.
  - now injection E as <-.
  - inv_bind E. inv_bind E. injection E as <-.
    rewrite (IH _ Hv0). simpl. f_equal.
    destruct c; try discriminate; now injection Hv as <-.
Qed.

Lemma group_sum_sum_of c g s :
  group_sum c g = Ok s -> s = sum_of (fun r => number_of (at_col c r)) g.
Proof.
  unfold group_sum. intros E. apply series_sum_sum_of in E. now rewrite sum_of_map in E.
Qed.



(** ** What the groups hold *)



Lemma select_combine_map {A B : Type} (p : A -> bool) (g : A -> B) (l : list A) :
  select (map p l) (combine (map g l) l) = map (fun r => (g r, r)) (List.filter p l).
Proof.
  induction l as [|x l IH]; [reflexivity|].
  simpl. destruct (p x); simpl; now rewrite IH.
Qed.

Lemma combine_map_self {A B : Type} (g : A -> B) (l : list A) :
  combine (map g l) l = map (fun r => (g r, r)) l.
Proof. induction l as [|x l IH]; simpl; [reflexivity | now rewrite IH]. Qed.

(** The key of a row of the frame. *)
Lemma week_keys_inv df fl keys :
  week_keys df = Ok (fl, keys) ->
  has_col df "FECHA_DE_INICIO" = true /\
  keys = map (fun r => week_of fl match at_col "FECHA_DE_INICIO" r with
                                  | Ts t => Some t
                                  | _ => None
                                  end) (rows df).
Proof.
  intros E. unfold week_keys in E.
  inv_bind E. inv_bind E. injection E as Efl <-.
  apply getitem_inv in Hv as [Hc ->]. split; [exact Hc|].
  apply dt_accessor_Ok in Hv0 as [-> _].
  rewrite Efl, !map_map. reflexivity.
Qed.

Lemma mask_eq_inv df c v mask :
  mask_eq df c v = Ok mask ->
  has_col df c = true /\ mask = map (fun r => cell_eq_str v (at_col c r)) (rows df).
Proof.
  intros E. unfold mask_eq in E. inv_bind E. injection E as <-.
  apply getitem_inv in Hv as [Hc ->]. split; [exact Hc|]. now rewrite map_map.
Qed.

Lemma require_col_inv df c u : require_col df c = Ok u -> has_col df c = true.
Proof. unfold require_col. now destruct (has_col df c). Qed.


Section WeeklyFurther.
Context {host : Host}.

(** The buckets of the general view, before the final sort. *)
Lemma get_weekly_data_inv df out :
  get_weekly_data df = Ok out ->
  df_empty df = false -> has_col df "FECHA_DE_INICIO" = true ->
  has_col df "TFS_MIN" = true /\ has_col df "TR_MIN" = true /\
  exists fl weekly_data,
    Permutation out weekly_data /\
    Forall2 (fun (g : week_key * list (gmap string cell)) y =>
               General.key y = fst g /\
               General.TFS_MIN y = sum_of (fun r => number_of (at_col "TFS_MIN" r)) (snd g) /\
               General.TR_MIN y = sum_of (fun r => number_of (at_col "TR_MIN" r)) (snd g) /\
               General.PRODUCCION_AFECTADA y
               = of_nat (length (List.filter affects_production (snd g))))
            (groupby_week
               (map (fun r => (week_of fl match at_col "FECHA_DE_INICIO" r with
                                          | Ts t => Some t
                                          | _ => None
                                          end, r))
                    (List.filter affects_production (rows df))))
            weekly_data.
Proof.
  intros E Hne Hc. unfold get_weekly_data in E. rewrite Hne, Hc in E. simpl in E.
  inv_bind E. destruct v as [fl keys].
  inv_bind E. inv_bind E. inv_bind E. inv_bind E. inv_bind E. inv_bind E.
  injection E as <-.
  apply week_keys_inv in Hv as [_ ->].
  apply mask_eq_inv in Hv0 as [_ ->].
  apply require_col_inv in Hv1, Hv2.
  split; [exact Hv1|]. split; [exact Hv2|].
  exists fl, v4. split; [apply sort_by_perm|].
  apply traverse_Ok in Hv5.
  rewrite (select_combine_map affects_production) in Hv5.
  eapply Forall2_impl; [exact Hv5|].
  intros g y Ey. simpl in Ey.
  inv_bind Ey. inv_bind Ey. inv_bind Ey. inv_bind Ey. injection Ey as <-. simpl.
  apply group_sum_sum_of in Hv, Hv0. subst. repeat split; reflexivity.
Qed.



(** The buckets of the overtime view, before the final sort. *)
Lemma get_weekly_extra_hours_inv df out :
  get_weekly_extra_hours df = Ok out ->
  df_empty df = false -> has_col df "FECHA_DE_INICIO" = true ->
  has_col df "H_EXTRA_MIN" = true /\
  exists fl weekly_extra_data,
    Permutation out weekly_extra_data /\
    Forall2 (fun (g : week_key * list (gmap string cell)) y =>
               Overtime.key y = fst g /\
               Overtime.H_EXTRA_MIN y
               = sum_of (fun r => number_of (at_col "H_EXTRA_MIN" r)) (snd g))
            (groupby_week
               (map (fun r => (week_of fl match at_col "FECHA_DE_INICIO" r with
                                          | Ts t => Some t
                                          | _ => None
                                          end, r))
                    (rows df)))
            weekly_extra_data.
Proof.
  intros E Hne Hc. unfold get_weekly_extra_hours in E. rewrite Hne, Hc in E. simpl in E.
  inv_bind E. destruct v as [fl keys].
  inv_bind E. inv_bind E.
  injection E as <-.
  apply week_keys_inv in Hv as [_ ->].
  apply require_col_inv in Hv0.
  split; [exact Hv0|].
  exists fl, v0. split; [apply sort_by_perm|].
  apply traverse_Ok in Hv1.
  rewrite combine_map_self in Hv1.
  eapply Forall2_impl; [exact Hv1|].
  intros g y Ey. simpl in Ey.
  inv_bind Ey. injection Ey as <-. simpl.
  apply group_sum_sum_of in Hv. subst. split; reflexivity.
Qed.



End WeeklyFurther.

(** ** The sizes of the groups *)












(** * The year of a weekly bucket *)

Lemma groupby_week_has_key {A : Type} (keyed : list (option week_key * A)) k :
  In (Some k) (map fst keyed) -> In k (map fst (groupby_week keyed)).
Proof.
  intros Hk. unfold groupby_week.
  apply (Permutation_in _ (Permutation_map fst (Permutation_sym (sort_by_perm _ _)))).
  revert Hk. unfold collect_groups.
  enough (forall gs,
             In k (map fst gs) \/ In (Some k) (map fst keyed) ->
             In k (map fst (fold_left (fun gs kx =>
                                         match fst kx with
                                         | Some k => group_push k (snd kx) gs
                                         | None => gs
                                         end) keyed gs))) as Hgen.
  { intros Hk. apply Hgen. now right. }
  induction keyed as [|[[k0|] x] keyed IH]; intros gs Hk; simpl in *.
  - destruct Hk as [Hk|[]]. exact Hk.
  - apply IH.
    destruct (group_push_keys k0 x gs) as [[Hin ->]|[_ ->]].
    + destruct Hk as [Hk|[Hk|Hk]]; [now left | injection Hk as <-; now left | now right].
    + destruct Hk as [Hk|[Hk|Hk]].
      * left. apply in_or_app. now left.
      * injection Hk as <-. left. apply in_or_app. right. now left.
      * now right.
  - apply IH. destruct Hk as [Hk|[Hk|Hk]]; [now left | discriminate | now right].
Qed.

Lemma Forall2_In_l {A B : Type} (P : A -> B -> Prop) l l' x :
  Forall2 P l l' -> In x l -> exists y, In y l' /\ P x y.
Proof.
  induction 1 as [|x' y l l' Hxy _ IH]; intros Hx; [destruct Hx|].
  destruct Hx as [<-|Hx].
  - exists y. split; [now left | exact Hxy].
  - destruct (IH Hx) as (y' & Hy' & HP). exists y'. split; [now right | exact HP].
Qed.

(** The key of a dated row among the keys of the groups. *)
Lemma keyed_row_has_group fl (l : list (gmap string cell)) r t :
  In r l -> at_col "FECHA_DE_INICIO" r = Ts t ->
  exists k,
    bucket_of k t /\
    In k (map fst (groupby_week
                     (map (fun r => (week_of fl match at_col "FECHA_DE_INICIO" r with
                                                | Ts t => Some t
                                                | _ => None
                                                end, r)) l))).
Proof.
  intros Hr Ht.
  exists (mkwk (year_str fl (year (ts_date t)) ++ "-S" ++ week_str (iso_week (ts_date t)))
               (year (ts_date t)) (iso_week (ts_date t))).
  split; [split; reflexivity|].
  apply groupby_week_has_key. rewrite map_map. cbn [fst].
  apply in_map_iff. exists r. split; [|exact Hr]. now rewrite Ht.
Qed.

Lemma df_nonempty df r c :
  In r (rows df) -> has_col df c = true -> df_empty df = false.
Proof.
  unfold df_empty, has_col. intros Hr Hc.
  destruct (columns df); [discriminate|]. now destruct (rows df).
Qed.

Section WeeklyYear.
Context {host : Host}.

Lemma get_weekly_data_bucket_of_record df out r t :
  get_weekly_data df = Ok out ->
  has_col df "FECHA_DE_INICIO" = true ->
  In r (rows df) -> affects_production r = true -> at_col "FECHA_DE_INICIO" r = Ts t ->
  exists b, In b out /\ bucket_of (General.key b) t.
Proof.
  intros E Hc Hr Hp Ht.
  destruct (get_weekly_data_inv _ _ E (df_nonempty _ _ _ Hr Hc) Hc)
    as (_ & _ & fl & weekly & Hperm & Hweekly).
  destruct (keyed_row_has_group fl (List.filter affects_production (rows df)) r t)
    as (k & Hk & Hin); [apply filter_In; now split | exact Ht|].
  apply in_map_iff in Hin as (g & <- & Hg).
  destruct (Forall2_In_l _ _ _ _ Hweekly Hg) as (y & Hy & Hkey & _).
  exists y. split; [exact (Permutation_in _ (Permutation_sym Hperm) Hy)|].
  now rewrite Hkey.
Qed.

Lemma get_weekly_extra_hours_bucket_of_record df out r t :
  get_weekly_extra_hours df = Ok out ->
  has_col df "FECHA_DE_INICIO" = true ->
  In r (rows df) -> at_col "FECHA_DE_INICIO" r = Ts t ->
  exists b, In b out /\ bucket_of (Overtime.key b) t.
Proof.
  intros E Hc Hr Ht.
  destruct (get_weekly_extra_hours_inv _ _ E (df_nonempty _ _ _ Hr Hc) Hc)
    as (_ & fl & weekly & Hperm & Hweekly).
  destruct (keyed_row_has_group fl (rows df) r t Hr Ht) as (k & Hk & Hin).
  apply in_map_iff in Hin as (g & <- & Hg).
  destruct (Forall2_In_l _ _ _ _ Hweekly Hg) as (y & Hy & Hkey & _).
  exists y. split; [exact (Permutation_in _ (Permutation_sym Hperm) Hy)|].
  now rewrite Hkey.
Qed.

Lemma get_weekly_emergency_data_bucket_of_record df out r t :
  get_weekly_emergency_data df = Ok out ->
  has_col df "FECHA_DE_INICIO" = true ->
  In r (rows df) -> is_emergency r = true -> at_col "FECHA_DE_INICIO" r = Ts t ->
  exists b, In b out /\ bucket_of (Emergency.key b) t.
Proof.
  intros E Hc Hr Hp Ht. unfold get_weekly_emergency_data in E.
  rewrite (df_nonempty _ _ _ Hr Hc), Hc in E. cbn [orb negb] in E.
  inv_bind E. destruct v as [fl keys].
  inv_bind E.
  apply week_keys_inv in Hv as [_ ->].
  apply mask_eq_inv in Hv0 as [_ ->].
  rewrite (select_combine_map is_emergency) in E.
  destruct (keyed_row_has_group fl (List.filter is_emergency (rows df)) r t)
    as (k & Hk & Hin); [apply filter_In; now split | exact Ht|].
  cbv zeta in E.
  destruct (map _ (List.filter is_emergency (rows df))) as [|kr df_emergency] eqn:Ekeyed.
  { destruct Hin. }
  remember (kr :: df_emergency) as keyed eqn:Ek in *. clear Ek Ekeyed.
  inv_bind E. inv_bind E. inv_bind E. inv_bind E. inv_bind E. inv_bind E.
  injection E as <-.
  apply in_map_iff in Hin as (g & <- & Hg).
  apply traverse_Ok in Hv3.
  destruct (Forall2_In_l _ _ _ _ Hv3 Hg) as ([k' [[[tr tfc] tfs] td]] & Hy & Ey).
  simpl in Ey. inv_bind Ey. inv_bind Ey. inv_bind Ey. injection Ey as <- <- <- <- <-.
  eexists. split.
  - apply (Permutation_in _ (Permutation_sym (sort_by_perm _ _))).
    apply in_map_iff. eexists. split; [reflexivity | exact Hy].
  - exact Hk.
Qed.

(** C7 (what the code does). The key of a weekly bucket is the calendar
    year of the start date together with its ISO week number, and not the
    ISO (year, week): in each of the three views every dated record that
    the view counts has its bucket under the calendar year and the ISO
    week of its start date, and the buckets are strictly ascending in the
    order of these pairs, without a key that occurs twice.  So a start date
    whose ISO year is not its calendar year has its bucket under another
    year than its ISO year: the last days of December that the ISO calendar
    puts in week 1 of the next year go to week 1 of their own year, with
    the first days of January of that year and before its weeks 2 to 53. *)
Theorem weekly_buckets_use_the_calendar_year df :
  start_dates_in_range df ->
  has_col df "FECHA_DE_INICIO" = true ->
  (forall out, get_weekly_data df = Ok out ->
     strictly_ascending (map General.key out) /\ NoDup (map General.key out) /\
     forall r t, In r (rows df) -> affects_production r = true ->
                 at_col "FECHA_DE_INICIO" r = Ts t ->
                 exists b, In b out /\ bucket_of (General.key b) t) /\
  (forall out, get_weekly_extra_hours df = Ok out ->
     strictly_ascending (map Overtime.key out) /\ NoDup (map Overtime.key out) /\
     forall r t, In r (rows df) -> at_col "FECHA_DE_INICIO" r = Ts t ->
                 exists b, In b out /\ bucket_of (Overtime.key b) t) /\
  (forall out, get_weekly_emergency_data df = Ok out ->
     strictly_ascending (map Emergency.key out) /\ NoDup (map Emergency.key out) /\
     forall r t, In r (rows df) -> is_emergency r = true ->
                 at_col "FECHA_DE_INICIO" r = Ts t ->
                 exists b, In b out /\ bucket_of (Emergency.key b) t) /\
  (forall k t, bucket_of k t -> iso_year (ts_date t) <> year (ts_date t) ->
               AÑO k <> iso_year (ts_date t)).
Proof.
  intros Hrange Hc. split; [|split; [|split]].
  - intros out E.
    destruct (get_weekly_data_ascending df out Hrange E) as [Hsorted Hnodup].
    split; [exact Hsorted|]. split; [exact Hnodup|].
    intros r t. now apply get_weekly_data_bucket_of_record.
  - intros out E.
    destruct (get_weekly_extra_hours_ascending df out Hrange E) as [Hsorted Hnodup].
    split; [exact Hsorted|]. split; [exact Hnodup|].
    intros r t. now apply get_weekly_extra_hours_bucket_of_record.
  - intros out E.
    destruct (get_weekly_emergency_data_ascending df out Hrange E) as [Hsorted Hnodup].
    split; [exact Hsorted|]. split; [exact Hnodup|].
    intros r t. now apply get_weekly_emergency_data_bucket_of_record.
  - intros k t [Hy _] Hne. congruence.
Qed.

End WeeklyYear.

Section WeeklyYearExamples.
Import Examples Sheets.
#[local] Existing Instance Sample.host.

Lemma year_turn_dates_in_range : start_dates_in_range year_turn.
Proof.
  intros r t Hr E. simpl in Hr.
  repeat (destruct Hr as [<-|Hr]; [vm_compute in E; injection E as <-; reflexivity|]).
  destruct Hr.
Qed.

(** C7, on stoppages of 2024-01-02, 2024-12-23, 2024-12-30 and
    2025-01-06, that is of the ISO weeks 2024-W01, 2024-W52, 2025-W01 and
    2025-W02: the general view returns the buckets 2024-S01, 2024-S52 and
    2025-S02; the stoppage of 2024-12-30 is counted in 2024-S01 with the
    one of 2024-01-02, before the bucket of 2024-12-23. *)
Lemma weekly_buckets_use_the_calendar_year_witness :
  let out := unwrap [] (get_weekly_data year_turn) in
  let late := mkts (mkdate 2024 12 30) 0 in
  map (fun r => match at_col "FECHA_DE_INICIO" r with
                | Ts t => (iso_year (ts_date t), iso_week (ts_date t))
                | _ => (0, 0)%Z
                end) (rows year_turn)
  = [(2024, 1); (2024, 52); (2025, 1); (2025, 2)]%Z /\
  map (fun b => (SEMANA_STR (General.key b), General.TFS_MIN b,
                 General.PRODUCCION_AFECTADA b)) out
  = [("2024-S01", 41, 2); ("2024-S52", 60, 1); ("2025-S02", 10, 1)] /\
  strictly_ascending (map General.key out) /\
  (exists b, In b out /\ AÑO (General.key b) = 2024%Z /\ SEMANA (General.key b) = 1%Z) /\
  (forall k, bucket_of k late -> AÑO k <> iso_year (ts_date late)).
Proof.
  intros out late.
  destruct (weekly_buckets_use_the_calendar_year year_turn year_turn_dates_in_range eq_refl)
    as (Hgeneral & _ & _ & Hyear).
  assert (get_weekly_data year_turn = Ok out) as E
      by (apply unwrap_Ok; vm_compute; reflexivity).
  destruct (Hgeneral out E) as (Hsorted & _ & Hbucket).
  split; [vm_compute; reflexivity|]. split; [vm_compute; reflexivity|].
  split; [exact Hsorted|]. split.
  - destruct (Hbucket (event "A" "MOTOR" "CORRECTIVO DE EMERGENCIA" "SI" (mkdate 2024 12 30)
                         11 1440 11 0) late)
      as (b & Hb & Hy & Hw).
    + simpl. tauto.
    + vm_compute. reflexivity.
    + vm_compute. reflexivity.
    + exists b. split; [exact Hb|]. split; [exact Hy | exact Hw].
  - intros k Hk. apply (Hyear k late Hk). vm_compute. discriminate.
Defined.

End WeeklyYearExamples.

(** * Further properties of the normalizer and of the loader *)

Section NormalizerFurther.
Context {host : Host}.

(** ** The derived duration *)



(** ** Columns through the steps of the normalizer *)













(** ** A sheet without start dates *)






End NormalizerFurther.

(** * The engine on normalized records *)



(** ** The rows of the groups come from the keyed rows *)







Section Pipeline.
Context {host : Host}.






(** ** The weekly views *)






End Pipeline.

(** * Properties of the page *)

(** ** The first and the last start date *)







(** ** The values of a column *)






(** ** The order of the maintenance types *)















(** ** The status lights *)


Section PageProperties.
Context {host : Host}.





End PageProperties.

(** ** The top-10 tables of the emergency orders *)










(** * The further properties on the example frames *)


Section FurtherExamples.
Import Examples Sheets.
#[local] Existing Instance Sample.host.


























End FurtherExamples.
